(** * git4intel: the CTI repository client over Elasticsearch

    A shallow embedding of [git4intel/client.py] (class [Client]): the
    marking manager ([set_tlpplus]), the policy cache and access policy
    builder ([get_id_markings]), the search wrapper ([search]) and the
    molecule traversal ([get_molecule]).

    Python values are embedded as follows.
    - Strings are [string]; [s.split('--')] is [split_dd].
    - JSON documents and query bodies are [json] (strings, lists, objects;
      numbers, booleans and null are left out: no modelled path inspects one).
    - A method is a function [world -> result A * world]: the [world] holds
      the Python heap (caller-visible list objects), the Elasticsearch
      documents and aliases, and a ghost [trace] of the calls made to
      [Client.search] and to the Elasticsearch [search] endpoint.
    - A Python exception is [Raise e]; [return False] is a constructor of the
      result type of each method.
    - Helpers imported from [git4intel/utils.py], the [stix2] library and the
      Elasticsearch server are fields of [environment]. *)

From Stdlib Require Import Ascii String.
From stdpp Require Import gmap strings list pretty.

Open Scope string_scope.
Open Scope list_scope.

(** ** Python strings *)

Definition prepend (c : ascii) (parts : list string) : list string :=
  match parts with
  | p :: ps => String c p :: ps
  | [] => [String c EmptyString]
  end.

(** [s.split('--')]: split at each occurrence of the separator, scanning
    from the left without overlap. *)
Fixpoint split_dd (s : string) : list string :=
  match s with
  | EmptyString => [EmptyString]
  | String c s1 =>
      match s1 with
      | EmptyString => [String c EmptyString]
      | String c1 s2 =>
          if (Ascii.eqb c "-" && Ascii.eqb c1 "-")%bool
          then EmptyString :: split_dd s2
          else prepend c (split_dd s1)
      end
  end.

(** [s.split('--')[0]]; the list is never empty. *)
Definition split_first (s : string) : string :=
  match split_dd s with
  | p :: _ => p
  | [] => EmptyString
  end.

(** [repr] of a string free of quotes, backslashes and control characters,
    which is the case of STIX identifiers. *)
Definition py_repr (s : string) : string := "'" +:+ s +:+ "'".

(** [str(l)] for a list of strings. *)
Definition py_str_list (l : list string) : string :=
  "[" +:+ String.concat ", " (py_repr <$> l) +:+ "]".

(** [s[:-4]] *)
Definition drop_last4 (s : string) : string :=
  substring 0 (String.length s - 4) s.

Fixpoint insert_sorted (x : string) (l : list string) : list string :=
  match l with
  | [] => [x]
  | y :: l' =>
      match String.compare x y with
      | Lt => x :: l
      | Eq => l
      | Gt => y :: insert_sorted x l'
      end
  end.

(** [sorted(set(l))]: strings compare by code point. *)
Definition py_sorted_set (l : list string) : list string :=
  foldr insert_sorted [] l.

(** [list(set(l))]: the elements of [l] without repetition. CPython fixes no
    order for it; the embedding keeps the last occurrence of each element. *)
Definition py_list_set (l : list string) : list string := remove_dups l.

(** ** JSON *)

#[local] Unset Elimination Schemes.
Inductive json : Type :=
  | JStr (s : string)
  | JList (l : list json)
  | JObj (kvs : list (string * json)).
#[local] Set Elimination Schemes.

(** A Python dict with string keys, in insertion order. *)
Abbreviation pydict := (list (string * json)).

(** [d[k]], [None] standing for KeyError. *)
Fixpoint jget (k : string) (d : pydict) : option json :=
  match d with
  | [] => None
  | (k', v) :: d' => if String.eqb k k' then Some v else jget k d'
  end.

(** Truth value of a JSON value: empty strings, lists and dicts are false. *)
Definition truthy (j : json) : bool :=
  match j with
  | JStr EmptyString => false
  | JList [] => false
  | JObj [] => false
  | _ => true
  end.

Definition jobj1 (k : string) (v : json) : json := JObj [(k, v)].

(** [{"match": {field: value}}] *)
Definition jmatch (field value : string) : json :=
  jobj1 "match" (jobj1 field (JStr value)).

(** [{"bool": {"should": l}}] *)
Definition jshould (l : list json) : json :=
  jobj1 "bool" (jobj1 "should" (JList l)).

(** ** Exceptions, requests and the world *)

Inductive exn : Type :=
  | IndexError
  | KeyError
  | TypeError
  | AttributeError
  | StixError          (* stix2 rejected the object it was asked to build *)
  | ValueError         (* the Elasticsearch client was given an empty argument *)
  | TransportError     (* raised by the Elasticsearch client *)
  | RecursionError.    (* the traversal's round budget of the embedding ran out *)

Inductive result (A : Type) : Type :=
  | Ok (a : A)
  | Raise (e : exn).
Arguments Ok {A} a.
Arguments Raise {A} e.

(** The value bound to [kwargs['index']]: a name, or the [False] that
    [get_id_markings] may return. *)
Inductive pyidx : Type :=
  | IdxName (s : string)
  | IdxFalse.

(** The keyword arguments a caller gives [Client.search]; a key that is
    absent is [None]. *)
Record kwargs : Type := Kwargs {
  kw_index : option string;
  kw_size : option N;
  kw_body : option json;
  kw_filter_path : option (list string);
  kw_source_excludes : option (list string)
}.

(** The keyword arguments [Client.search] hands to [Elasticsearch.search]:
    by then [index] and [size] are always present. *)
Record es_request : Type := EsRequest {
  rq_index : pyidx;
  rq_size : N;
  rq_body : option json;
  rq_filter_path : option (list string);
  rq_source_excludes : option (list string)
}.

(** An Elasticsearch search response as the client reads it: [{}] (false in
    a condition), or [{'hits': {'hits': [...]}}] with the [_source] of each hit. *)
Inductive response : Type :=
  | RespEmpty
  | RespHits (sources : list pydict).

(** [bool(res)] *)
Definition resp_bool (r : response) : bool :=
  match r with
  | RespEmpty => false
  | RespHits _ => true
  end.

(** [res['hits']['hits']], each hit reduced to its [_source]. *)
Definition resp_sources (r : response) : result (list pydict) :=
  match r with
  | RespEmpty => Raise KeyError
  | RespHits hs => Ok hs
  end.

Inductive pyobj : Type :=
  | PyList (items : list string)
  | PyOther.

Record alias : Type := Alias {
  alias_index : list string;   (* the concrete indices behind the alias *)
  alias_body : option json     (* its filter *)
}.

Inductive event : Type :=
  | CallSearch (user_id : string) (schema : option json) (_md : option bool)
               (kw : kwargs)
  | EsSearch (rq : es_request).

Record world : Type := World {
  heap : gmap nat pyobj;
  docs : gmap (string * string) pydict;
  aliases : gmap string alias;
  trace : list event
}.

Definition with_heap (h : gmap nat pyobj) (w : world) : world :=
  World h (docs w) (aliases w) (trace w).
Definition with_docs (d : gmap (string * string) pydict) (w : world) : world :=
  World (heap w) d (aliases w) (trace w).
Definition with_aliases (a : gmap string alias) (w : world) : world :=
  World (heap w) (docs w) a (trace w).
Definition emit (e : event) (w : world) : world :=
  World (heap w) (docs w) (aliases w) (trace w ++ [e]).

(** ** The method monad *)

Definition M (A : Type) : Type := world -> result A * world.

Definition ret {A} (a : A) : M A := fun w => (Ok a, w).
Definition raise {A} (e : exn) : M A := fun w => (Raise e, w).
Definition bind {A B} (m : M A) (k : A -> M B) : M B :=
  fun w =>
    match m w with
    | (Ok a, w') => k a w'
    | (Raise e, w') => (Raise e, w')
    end.
Definition lift {A} (r : result A) : M A := fun w => (r, w).

Notation "x <- m ;; k" := (bind m (fun x => k))
  (at level 100, m at next level, right associativity).

(** [l[i]] on a list, raising IndexError. *)
Definition index_or_raise (l : list string) (i : nat) : result string :=
  match l !! i with
  | Some x => Ok x
  | None => Raise IndexError
  end.

(** [s.split('--')[1]] *)
Definition split_second (s : string) : result string :=
  index_or_raise (split_dd s) 1.

(** [v.split('--')[1]] for a JSON value: only strings have [split]. *)
Definition jsplit_second (v : json) : result string :=
  match v with
  | JStr s => split_second s
  | _ => Raise AttributeError
  end.

(** [d[k]] raising KeyError. *)
Definition jget_or_raise (k : string) (d : pydict) : result json :=
  match jget k d with
  | Some v => Ok v
  | None => Raise KeyError
  end.

(** ** stix2 objects built by the client *)

(** [stix2.TLP_AMBER.id] and [stix2.TLP_RED.id] *)
Definition TLP_AMBER_id : string :=
  "marking-definition--f88d31f6-486f-44da-b317-01333bde0b82".
Definition TLP_RED_id : string :=
  "marking-definition--5e57c739-391a-4eb3-b6be-7d15ca92d5ed".

(** The custom marking [x-tlpplus-marking]. *)
Record TLPPlusMarking : Type := MkTLPPlus {
  tlp_marking_def_ref : string;
  distribution_refs : list string
}.

(** The arguments [set_tlpplus] gives [stix2.v21.MarkingDefinition]. *)
Record MarkingDefinition : Type := MkMarking {
  definition_type : string;
  definition : TLPPlusMarking;
  md_id : string;
  created_by_ref : string
}.

(** [json.loads(new_md.serialize())]: the properties the client sets and the
    object type; the [created] time stamp and [spec_version] the library
    adds are left out. *)
Definition serialize (md : MarkingDefinition) : pydict :=
  [ ("type", JStr "marking-definition");
    ("id", JStr (md_id md));
    ("created_by_ref", JStr (created_by_ref md));
    ("definition_type", JStr (definition_type md));
    ("definition", JObj
       [ ("tlp_marking_def_ref", JStr (tlp_marking_def_ref (definition md)));
         ("distribution_refs", JList (JStr <$> distribution_refs (definition md))) ]) ].

(** ** The environment of the client *)

(** What the client imports or reaches over the network.
    - [today]: the calendar day the clock shows.
    - [get_deterministic_uuid prefix seed], [get_schema], [get_all_schemas]:
      helpers of [git4intel/utils.py], which is not among the sources; a
      schema is given by the clause list under its ['bool']['should'].
    - [md_time_index day user_id old_alias]: the helper of [utils.py] that
      gives the root and the date of an alias name. It reads the clock; here
      it is handed the calendar day, the policy cache being keyed by user,
      index and calendar day.
    - [es_search]: the answer of the Elasticsearch [search] endpoint.
    - [es_auto_id]: the id the server makes up for a document that is posted
      without one.
    - [stix2_accepts]: whether stix2 builds the marking definition or raises.
    - [identity_id], [os_group_id], [pii_marking_id]: [self.identity['id']],
      [self.os_group_id] and [self.pii_marking['id']]. *)
Record environment : Type := Environment {
  today : nat;
  get_deterministic_uuid : string -> string -> string;
  md_time_index : nat -> string -> string -> string * string;
  get_schema : string -> option (list json);
  get_all_schemas : list (list json);
  es_search : world -> es_request -> result response;
  es_auto_id : world -> string;
  stix2_accepts : MarkingDefinition -> bool;
  identity_id : string;
  os_group_id : string;
  pii_marking_id : string
}.

(** ** Elasticsearch: documents *)

(** [self.exists(index=..., id=..., ignore=[400, 404])]: the client refuses
    an empty index or id before it sends anything. *)
Definition es_exists (index id : string) : M bool :=
  fun w =>
    if (String.eqb index "" || String.eqb id "")%bool then (Raise ValueError, w)
    else (Ok (bool_decide (is_Some (docs w !! (index, id)))), w).

(** [self.index(index=..., body=..., id=...)['result']]: the client refuses
    an empty index; with an empty id it posts the document without one and
    the server files it under an id of its own making; otherwise the
    document is written under its id, replacing an older one. The index
    name is taken to be one the server accepts. *)
Definition es_index (E : environment) (index : string) (body : pydict)
    (id : string) : M string :=
  fun w =>
    if String.eqb index "" then (Raise ValueError, w) else
    let id := if String.eqb id "" then es_auto_id E w else id in
    (Ok (if bool_decide (is_Some (docs w !! (index, id)))
         then "updated" else "created"),
     with_docs (<[(index, id) := body]> (docs w)) w).

(** [Client.__store_object] *)
Definition store_object (E : environment) (obj : pydict) : M bool :=
  id <- lift (jget_or_raise "id" obj) ;;
  match id with
  | JStr id =>
      let id_parts := split_dd id in
      index_name <- lift (index_or_raise id_parts 0) ;;
      doc_id <- lift (index_or_raise id_parts 1) ;;
      res <- es_index E index_name obj doc_id ;;
      if (String.eqb res "created" || String.eqb res "updated")%bool
      then ret true
      else ret false
  | _ => raise AttributeError
  end.

(** The argument of [store_objects]: one object or a list of them. *)
Inductive objects_arg : Type :=
  | OneObject (obj : pydict)
  | ObjectList (objs : list pydict).

Fixpoint store_each (E : environment) (objs : list pydict) : M bool :=
  match objs with
  | [] => ret true
  | obj :: rest =>
      ok <- store_object E obj ;;
      if negb ok then ret false else store_each E rest
  end.

(** [Client.store_objects] *)
Definition store_objects (E : environment) (objects : objects_arg) : M bool :=
  match objects with
  | ObjectList objs => store_each E objs
  | OneObject obj => store_object E obj
  end.

(** ** The marking manager *)

(** What [set_tlpplus] returns: [False], the identifier of a marking that is
    already stored, or the pair [(md_id, md_json)]. *)
Inductive tlpplus_result : Type :=
  | TlpFalse
  | TlpExisting (md_id : string)
  | TlpCreated (md_id : string) (md_json : pydict).

(** [distribution_refs.append(x)] on the list object at [l]. *)
Definition heap_append (l : nat) (x : string) : M unit :=
  fun w =>
    match heap w !! l with
    | Some (PyList items) =>
        (Ok tt, with_heap (<[l := PyList (items ++ [x])]> (heap w)) w)
    | _ => (Raise AttributeError, w)
    end.

Definition read_heap (l : nat) : M (option pyobj) :=
  fun w => (Ok (heap w !! l), w).

(** [TLPPlusMarking(...)] followed by [stix2.v21.MarkingDefinition(...)]. *)
Definition build_marking (E : environment) (tlp_marking_def_ref : string)
    (ref_list : list string) (md_id user_id : string) : M MarkingDefinition :=
  let tlp_plus := MkTLPPlus tlp_marking_def_ref ref_list in
  let new_md := MkMarking "tlp-plus" tlp_plus md_id user_id in
  if stix2_accepts E new_md then ret new_md else raise StixError.

(** [Client.set_tlpplus]; [distribution_refs] is the heap address of the
    caller's argument. *)
Definition set_tlpplus (E : environment) (user_id tlp_marking_def_ref : string)
    (distribution_refs : nat) : M tlpplus_result :=
  if negb (String.eqb (split_first user_id) "identity") then ret TlpFalse else
  arg <- read_heap distribution_refs ;;
  match arg with
  | Some (PyList items) =>
      if (negb (String.eqb tlp_marking_def_ref TLP_AMBER_id) &&
          negb (String.eqb tlp_marking_def_ref TLP_RED_id))%bool
      then ret TlpFalse else
      let ref_list := items in
      _ <- heap_append distribution_refs tlp_marking_def_ref ;;
      (* the name is rebound to a new list, which is not read again *)
      let distribution_refs' := py_sorted_set (items ++ [tlp_marking_def_ref]) in
      let md_id := get_deterministic_uuid E "marking-definition--"
                     (py_str_list ref_list) in
      doc_id <- lift (split_second md_id) ;;
      found <- es_exists "marking-definition" doc_id ;;
      if found then ret (TlpExisting md_id) else
      new_md <- build_marking E tlp_marking_def_ref ref_list md_id user_id ;;
      let md_json := serialize new_md in
      stored <- store_objects E (OneObject md_json) ;;
      if negb stored then ret TlpFalse else
      ret (TlpCreated md_id md_json)
  | _ => ret TlpFalse
  end.

(** ** Elasticsearch: search, multi-get and aliases *)

(** The call of [Elasticsearch.search] through [super()], with the keyword
    arguments as they stand: the request is recorded and answered by the
    server. *)
Definition super_search (E : environment) (rq : es_request) : M response :=
  fun w => (es_search E w rq, emit (EsSearch rq) w).

(** [self.mget(body={"docs": [...]})['docs']]: for each [(_index, _id)] the
    [_source] of the document, when it is found. *)
Definition es_mget (keys : list (string * string)) : M (list (option pydict)) :=
  fun w => (Ok ((fun k => docs w !! k) <$> keys), w).

(** [self.indices.exists_alias(name=...)] *)
Definition exists_alias (name : string) : M bool :=
  fun w => (Ok (bool_decide (is_Some (aliases w !! name))), w).

(** [self.indices.delete_alias(index='_all', name=[root + '*'],
    ignore=[400, 404])]: every alias whose name starts with [root] goes. *)
Definition delete_alias (root : string) : M unit :=
  fun w =>
    (Ok tt,
     with_aliases (filter (fun kv => String.prefix root kv.1 = false) (aliases w)) w).

(** [self.cat.aliases(name=..., format='json')], each row reduced to its
    ['index'], for [name] the plain name of an alias (no wildcard). *)
Definition cat_aliases (name : string) : M (list string) :=
  fun w =>
    (Ok match aliases w !! name with
        | Some a => alias_index a
        | None => []
        end, w).

(** [self.indices.put_alias(index=..., name=..., body=...)]: the client
    refuses an empty list of indices or an empty name before it sends
    anything. *)
Definition put_alias (index : list string) (name : string) (body : json) : M unit :=
  fun w =>
    match index with
    | [] => (Raise ValueError, w)
    | _ =>
        if String.eqb name "" then (Raise ValueError, w)
        else (Ok tt, with_aliases (<[name := Alias index (Some body)]> (aliases w)) w)
    end.

Definition log_event (e : event) : M unit := fun w => (Ok tt, emit e w).

Fixpoint mapM_result {A B} (f : A -> result B) (l : list A) : result (list B) :=
  match l with
  | [] => Ok []
  | x :: l' =>
      match f x with
      | Ok y =>
          match mapM_result f l' with
          | Ok ys => Ok (y :: ys)
          | Raise e => Raise e
          end
      | Raise e => Raise e
      end
  end.

(** ** [Client.search] *)

(** Truth value of an optional argument: [None] is false. *)
Definition arg_truthy (a : option json) : bool :=
  match a with
  | Some j => truthy j
  | None => false
  end.

(** [get_schema(name)['bool']['should']] for a name of any type. *)
Definition schema_clauses (E : environment) (name : json) : result (list json) :=
  match name with
  | JStr s =>
      match get_schema E s with
      | Some clauses => Ok clauses
      | None => Raise KeyError
      end
  | _ => Raise TypeError
  end.

(** The list [_schema_should] that [search] builds from its [schema]. *)
Definition schema_should (E : environment) (schema : json) : result (list json) :=
  match schema with
  | JObj d => Ok [JObj d]
  | JStr s =>
      if String.eqb s "all" then Ok (List.concat (get_all_schemas E))
      else
        match mapM_result (schema_clauses E) [JStr s] with
        | Ok schemas => Ok (List.concat schemas)
        | Raise e => Raise e
        end
  | JList names =>
      match mapM_result (schema_clauses E) names with
      | Ok schemas => Ok (List.concat schemas)
      | Raise e => Raise e
      end
  end.

(** [kwargs['body']['query']] *)
Definition body_query (body : option json) : result json :=
  match body with
  | None => Raise KeyError
  | Some (JObj d) => jget_or_raise "query" d
  | Some _ => Raise TypeError
  end.

(** The body [search] sends when a schema is given. *)
Definition filtered_body (must : json) (_schema_should : list json) : json :=
  jobj1 "query"
    (jobj1 "bool" (JObj [("must", must); ("filter", jshould _schema_should)])).

(** [Client.search], with [get_id_markings] as a parameter: the method
    and [get_id_markings] call each other. *)
Definition search_via (E : environment)
    (get_id_markings : string -> string -> M pyidx)
    (user_id : string) (schema : option json) (_md : option bool)
    (kw : kwargs) : M response :=
  _ <- log_event (CallSearch user_id schema _md kw) ;;
  let _md := match _md with None => true | Some b => b end in
  let index := match kw_index kw with None => "intel" | Some i => i end in
  let size := match kw_size kw with None => 10000%N | Some n => n end in
  if (negb (arg_truthy schema) && negb _md)%bool
  then super_search E (EsRequest (IdxName index) size (kw_body kw)
                         (kw_filter_path kw) (kw_source_excludes kw))
  else
    index <- (if _md
              then get_id_markings user_id index
              else ret (IdxName index)) ;;
    body <- (match schema with
             | Some schema' =>
                 if truthy schema'
                 then
                   _schema_should <- lift (schema_should E schema') ;;
                   must <- lift (body_query (kw_body kw)) ;;
                   ret (Some (filtered_body must _schema_should))
                 else ret (kw_body kw)
             | None => ret (kw_body kw)
             end) ;;
    super_search E (EsRequest index size body
                      (kw_filter_path kw) (kw_source_excludes kw)).

(** ** [Client.get_molecule] *)

(** What [get_molecule] returns: [False], the identifiers, or the objects. *)
Inductive molecule_result : Type :=
  | MolFalse
  | MolIds (ids : list string)
  | MolObjs (objs : list pydict).

(** The list [ids] while a round collects into it: the strings appended so
    far, and whether a value that is not a string (so not hashable) was
    appended as well. *)
Definition frontier : Type := (list string * bool)%type.

(** [ids.append(v)] *)
Definition frontier_append (f : frontier) (v : json) : frontier :=
  match v with
  | JStr s => (f.1 ++ [s], f.2)
  | _ => (f.1, true)
  end.

(** The body of [for value in list(hit['_source'].values())]. *)
Definition collect_value (f : frontier) (value : json) : frontier :=
  match value with
  | JList subs =>
      foldl (fun f sub => if truthy sub then frontier_append f sub else f) f subs
  | _ => frontier_append f value
  end.

(** [for hit in res['hits']['hits']: ...] *)
Definition collect_hits (f : frontier) (hits : list pydict) : frontier :=
  foldl (fun f hit => foldl collect_value f (hit.*2)) f hits.

(** [check_lst[count] = b], appending on IndexError. *)
Definition check_set (check_lst : list bool) (count : nat) (b : bool) : list bool :=
  if decide (count < length check_lst)
  then <[count := b]> check_lst
  else check_lst ++ [b].

(** The query [q] of a round: the identifiers of the frontier, each cut to
    its part after [--], matched on [id] or found in a reference field. *)
Definition round_query (ids : list string) : result json :=
  match mapM_result split_second ids with
  | Ok parts =>
      let q_ids := jmatch "id" <$> parts in
      let q_str := drop_last4 (foldl (fun acc p => acc +:+ p +:+ " OR ") "" parts) in
      let q_ids := q_ids ++
        [jobj1 "query_string"
           (JObj [("fields", JList [JStr "*_ref"; JStr "*_refs"]);
                  ("query", JStr q_str)])] in
      Ok (jobj1 "query" (jobj1 "bool" (jobj1 "must" (jshould q_ids))))
  | Raise e => Raise e
  end.

(** The keyword arguments of a round's searches. *)
Definition round_kwargs (q : json) : kwargs :=
  Kwargs None None (Some q)
    (Some ["hits.hits._source.id"; "hits.hits._source.*_ref";
           "hits.hits._source.*_refs"])
    (Some ["created_by_ref"; "object_marking_refs"]).

(** The query of the closing search for the objects. *)
Definition objects_query (query : option json) (ids : list string) : result json :=
  match mapM_result split_second ids with
  | Ok parts =>
      let q_objs := jmatch "id" <$> parts in
      if arg_truthy query
      then
        match body_query query with
        | Ok extra =>
            Ok (jobj1 "query" (jobj1 "bool"
                  (jobj1 "must" (JList [extra; jshould q_objs]))))
        | Raise e => Raise e
        end
      else Ok (jobj1 "query" (jobj1 "bool" (jobj1 "must" (jshould q_objs))))
  | Raise e => Raise e
  end.

Definition objects_kwargs (q : json) : kwargs :=
  Kwargs None None (Some q) (Some ["hits.hits._source"]) None.

Section Traversal.

Variable E : environment.
(** [self.search] *)
Variable srch : string -> option json -> option bool -> kwargs -> M response.
Variables (user_id schema_name : string) (objs : option bool) (query : option json).
(** [pivot] and [_md] after their defaults. *)
Variables (pivot _md : bool).

(** [for schema in schemas: ...] of one round, on the clauses still to
    visit; [count], [ids] and [check_lst] as the loop holds them there. *)
Fixpoint for_schemas (q : json) (schemas : list json) (count : nat)
    (ids : frontier) (check_lst : list bool)
    : M (frontier * list bool) :=
  match schemas with
  | [] => ret (ids, check_lst)
  | schema :: rest =>
      if (negb pivot && bool_decide (check_lst !! count = Some true))%bool
      then for_schemas q rest count ids check_lst
      else
        res <- srch user_id (Some schema) (Some _md) (round_kwargs q) ;;
        let check_lst := if pivot then check_lst
                         else check_set check_lst count (resp_bool res) in
        let count := if pivot then count else (count + 1)%nat in
        let ids := match res with
                   | RespHits hits => collect_hits ids hits
                   | RespEmpty => ids
                   end in
        for_schemas q rest count ids check_lst
  end.

(** The searches of one round of the [while] loop and [ids = list(set(ids))]. *)
Definition molecule_round (ids : list string) (check_lst : list bool)
    : M (list string * list bool) :=
  q <- lift (round_query ids) ;;
  schemas <- (if pivot then ret [JStr schema_name]
              else lift (schema_clauses E (JStr schema_name))) ;;
  out <- for_schemas q schemas 0 (ids, false) check_lst ;;
  if out.1.2 then raise TypeError
  else ret (py_list_set out.1.1, out.2).

(** What the loop does once [new_len == old_len]. *)
Definition molecule_finish (ids : list string) : M molecule_result :=
  if negb (match objs with Some b => b | None => false end)
  then ret (MolIds ids)
  else
    q <- lift (objects_query query ids) ;;
    res <- srch user_id (Some (JStr schema_name)) (Some _md) (objects_kwargs q) ;;
    ret (MolObjs match res with
                 | RespHits hits => hits
                 | RespEmpty => []
                 end).

(** The [while True] loop; [fuel] bounds the rounds of the embedding. *)
Fixpoint molecule_loop (fuel : nat) (failed : nat) (ids : list string)
    (check_lst : list bool) : M molecule_result :=
  match fuel with
  | O => raise RecursionError
  | S fuel' =>
      let old_len := length ids in
      out <- molecule_round ids check_lst ;;
      let ids := out.1 in
      let new_len := length ids in
      if decide (new_len = old_len)
      then molecule_finish ids
      else
        let failed := (failed + 1)%nat in
        if decide (3 < failed) then ret MolFalse
        else molecule_loop fuel' failed ids out.2
  end.

End Traversal.

(** [Client.get_molecule], over the [search] it calls. The loop cannot run
    more than four rounds, which the fuel covers. *)
Definition get_molecule_via (E : environment)
    (srch : string -> option json -> option bool -> kwargs -> M response)
    (user_id : string) (stix_ids : list string) (schema_name : json)
    (objs : option bool) (query : option json) (pivot _md : option bool)
    : M molecule_result :=
  let _md := match _md with None => true | Some b => b end in
  let pivot := match pivot with None => true | Some b => b end in
  match schema_name with
  | JStr schema_name =>
      molecule_loop E srch user_id schema_name objs query pivot _md 4 0 stix_ids []
  | _ => ret MolFalse
  end.

(** ** [Client.get_objects] and [Client.get_object] *)

Notation "'let?' x := m 'in' k" :=
  (match m with Ok x => k | Raise e => Raise e end)
  (at level 10, x name, m at level 100, k at level 200).

(** [{"_index": obj_id.split('--')[0], "_id": obj_id.split('--')[1]}] *)
Definition doc_key (obj_id : string) : result (string * string) :=
  let parts := split_dd obj_id in
  let? i0 := index_or_raise parts 0 in
  let? i1 := index_or_raise parts 1 in
  Ok (i0, i1).

(** [for doc in res['docs']: docs.append(doc['_source'])] under
    [except KeyError: return False]. *)
Fixpoint all_sources (found : list (option pydict)) : option (list pydict) :=
  match found with
  | [] => Some []
  | Some d :: rest =>
      match all_sources rest with
      | Some ds => Some (d :: ds)
      | None => None
      end
  | None :: _ => None
  end.

(** [Client.get_objects] without [values] (the branch of an in-situ free
    text search is not taken by the callers embedded here); [None] is the
    [False] it returns. *)
Definition get_objects (user_id : string) (obj_ids : list string)
    : M (option (list pydict)) :=
  match obj_ids with
  | [] => ret None
  | _ =>
      if negb (String.eqb (split_first user_id) "identity") then ret None else
      keys <- lift (mapM_result doc_key obj_ids) ;;
      res <- es_mget keys ;;
      ret (all_sources res)
  end.

(** [Client.get_object] without [values]. *)
Definition get_object (user_id obj_id : string) : M (option pydict) :=
  docs <- get_objects user_id [obj_id] ;;
  match docs with
  | Some [doc] => ret (Some doc)
  | _ => ret None
  end.

(** ** [Client.get_id_markings] *)

(** The values a [for] loop draws from a JSON value: the elements of a
    list, the characters of a string, the keys of a dict. *)
Definition py_iter (v : json) : list json :=
  match v with
  | JList l => l
  | JStr s => (fun c => JStr (String c EmptyString)) <$> list_ascii_of_string s
  | JObj d => JStr <$> d.*1
  end.

(** [v == s] for a JSON value and a string. *)
Definition json_is_str (v : json) (s : string) : bool :=
  match v with
  | JStr s' => String.eqb s' s
  | _ => false
  end.

(** [{"bool": {"must_not": {"exists": {"field": "object_marking_refs"}}}}] *)
Definition unmarked_clause : json :=
  jobj1 "bool" (jobj1 "must_not"
    (jobj1 "exists" (jobj1 "field" (JStr "object_marking_refs")))).

(** The clause [valid_refs] gets for an object of the org chart. *)
Definition pii_clause (org_part pii_part : string) : json :=
  jobj1 "bool" (jobj1 "must"
    (JList [jmatch "id" org_part; jmatch "object_marking_refs" pii_part])).

(** [for org in org_objs: ...] in [get_id_markings]: the lists [org_should]
    and [valid_refs] after the loop. *)
Fixpoint org_criteria (E : environment) (org_objs : list pydict)
    (org_should valid_refs : list json) : result (list json * list json) :=
  match org_objs with
  | [] => Ok (org_should, valid_refs)
  | org :: rest =>
      let? org_id := jget_or_raise "id" org in
      let? org_type := jget_or_raise "type" org in
      let? org_should :=
        (if json_is_str org_type "organization"
         then
           let? part := jsplit_second org_id in
           Ok (org_should ++ [jmatch "definition.distribution_refs" part])
         else Ok org_should) in
      let? part := jsplit_second org_id in
      let? pii_part := split_second (pii_marking_id E) in
      org_criteria E rest org_should (valid_refs ++ [pii_clause part pii_part])
  end.

(** The query that resolves the org chart of a user. *)
Definition org_query : json :=
  jobj1 "query" (jshould [jmatch "type" "identity"; jmatch "type" "relationship"]).

(** The [get_id_markings] that a search with [_md=False] is given: it is
    never called (see [search_via_unmarked]). *)
Definition no_policy (user_id index_alias : string) : M pyidx := ret IdxFalse.

(** The search for the marking definitions whose distribution list names
    one of the criteria in [org_should]. *)
Definition marking_kwargs (org_should : list json) : kwargs :=
  Kwargs (Some "marking-definition") None
    (Some (jobj1 "query" (jshould org_should)))
    (Some ["hits.hits._source.id"]) None.

(** [org_should] for a user and the objects of their org chart. *)
Definition distribution_criteria (E : environment) (user_id_split : string)
    (org_objs : list pydict) (valid_refs : list json)
    : result (list json * list json) :=
  org_criteria E org_objs
    [jmatch "definition.distribution_refs" user_id_split] valid_refs.

(** The part of [get_id_markings] that builds the filter of the alias;
    [None] is its [return False]. *)
Definition visibility_filter (E : environment) (user_id : string) : M (option json) :=
  os_group <- get_object (identity_id E) (os_group_id E) ;;
  os_list <- (match os_group with
              | Some doc => lift (jget_or_raise "object_refs" doc)
              | None => raise TypeError
              end) ;;
  os_parts <- lift (mapM_result jsplit_second (py_iter os_list)) ;;
  let valid_refs := unmarked_clause :: (jmatch "object_marking_refs" <$> os_parts) in
  user_id_split <- lift (split_second user_id) ;;
  org_objs <- get_molecule_via E (search_via E no_policy) user_id [user_id]
                (JStr "org") (Some true) (Some org_query) None (Some false) ;;
  match org_objs with
  | MolFalse | MolIds [] | MolObjs [] => ret None
  | MolIds _ => raise TypeError
  | MolObjs org_objs =>
      lists <- lift (distribution_criteria E user_id_split org_objs valid_refs) ;;
      res <- search_via E no_policy user_id None (Some false)
               (marking_kwargs lists.1) ;;
      valid_refs <- (match res with
                     | RespHits hits =>
                         ids <- lift (mapM_result (jget_or_raise "id") hits) ;;
                         parts <- lift (mapM_result jsplit_second ids) ;;
                         ret (lists.2 ++ (jmatch "object_marking_refs" <$> parts))
                     | RespEmpty => ret lists.2
                     end) ;;
      ret (Some (jobj1 "filter" (jshould valid_refs)))
  end.

(** The name of the alias of a user over an index on the day [today E]. *)
Definition md_alias_name (E : environment) (user_id index_alias : string) : string :=
  (md_time_index E (today E) user_id index_alias).1 +:+ "--" +:+
  (md_time_index E (today E) user_id index_alias).2.

(** [Client.get_id_markings] *)
Definition get_id_markings (E : environment) (user_id index_alias : string)
    : M pyidx :=
  let md_alias_root := (md_time_index E (today E) user_id index_alias).1 in
  let md_alias_date := (md_time_index E (today E) user_id index_alias).2 in
  let md_alias_name := md_alias_root +:+ "--" +:+ md_alias_date in
  found <- exists_alias md_alias_name ;;
  if found then ret (IdxName md_alias_name) else
  _ <- delete_alias md_alias_root ;;
  body <- visibility_filter E user_id ;;
  match body with
  | None => ret IdxFalse
  | Some body =>
      alias_mapping <- cat_aliases index_alias ;;
      _ <- put_alias alias_mapping md_alias_name body ;;
      ret (IdxName md_alias_name)
  end.

(** [Client.search] *)
Definition search (E : environment) :=
  search_via E (get_id_markings E).

(** [Client.get_molecule] *)
Definition get_molecule (E : environment) :=
  get_molecule_via E (search E).

(** ** [Client.set_new_osdm] *)

(** [d[k] = v] on a dict: the value of a key that is there is replaced where
    it stands, a new key comes last. *)
Fixpoint jset (k : string) (v : json) (d : pydict) : pydict :=
  match d with
  | [] => [(k, v)]
  | (k', v') :: d' =>
      if String.eqb k k' then (k', v) :: d' else (k', v') :: jset k v d'
  end.

(** [s in refs] for a string [s]: membership in a list, a substring test on
    a string, a key test on a dict. *)
Definition str_in (s : string) (refs : json) : bool :=
  match refs with
  | JList l => existsb (fun x => json_is_str x s) l
  | JStr t => bool_decide (is_Some (String.index 0 s t))
  | JObj d => existsb (String.eqb s) d.*1
  end.

(** [Client.set_new_osdm]: the list under ['object_refs'] is appended to in
    place, so the dict that is stored is the one read, with the longer list. *)
Definition set_new_osdm (E : environment) (user_id stix_id : string) : M bool :=
  os_group <- get_object user_id (os_group_id E) ;;
  match os_group with
  | None => raise TypeError
  | Some os_group =>
      refs <- lift (jget_or_raise "object_refs" os_group) ;;
      if str_in stix_id refs then ret true else
      match refs with
      | JList l =>
          store_object E (jset "object_refs" (JList (l ++ [JStr stix_id])) os_group)
      | _ => raise AttributeError
      end
  end.

(** ** [Client.get_free_text] *)

(** What [get_free_text] returns: [False], the documents found, or one row
    per document: the document and, when it is not empty, its molecule. *)
Inductive free_text_result : Type :=
  | FreeFalse
  | FreeDocs (docs : list pydict)
  | FreeRows (rows : list (pydict * option molecule_result)).

(** Truth value of what [get_molecule] returns. *)
Definition molecule_truthy (m : molecule_result) : bool :=
  match m with
  | MolFalse => false
  | MolIds ids => negb (bool_decide (ids = []))
  | MolObjs objs => negb (bool_decide (objs = []))
  end.

(** [self.get_molecule(user_id=user_id, stix_ids=[seed], schema_name=schema,
    objs=True)] for a seed of any type: a seed that is not a string fails at
    its [split], which a schema name that is not a string forestalls. *)
Definition molecule_of_hit (E : environment) (user_id : string) (seed schema : json)
    : M molecule_result :=
  match seed with
  | JStr seed =>
      get_molecule E user_id [seed] schema (Some true) None None None
  | _ =>
      match schema with
      | JStr _ => raise AttributeError
      | _ => ret MolFalse
      end
  end.

(** [for hit in res['hits']['hits']: ...] with a schema. *)
Fixpoint free_text_rows (E : environment) (user_id : string) (schema : json)
    (hits : list pydict) : M (list (pydict * option molecule_result)) :=
  match hits with
  | [] => ret []
  | hit :: rest =>
      seed <- lift (jget_or_raise "id" hit) ;;
      molecule <- molecule_of_hit E user_id seed schema ;;
      let hit_row := (hit, if molecule_truthy molecule then Some molecule else None) in
      rows <- free_text_rows E user_id schema rest ;;
      ret (hit_row :: rows)
  end.

(** The query of [get_free_text]. *)
Definition phrase_body (phrase : string) : json :=
  jobj1 "query" (jobj1 "multi_match" (jobj1 "query" (JStr phrase))).

(** [Client.get_free_text] *)
Definition get_free_text (E : environment) (user_id phrase : string)
    (schema : option json) : M free_text_result :=
  res <- search E user_id None None
           (Kwargs None None (Some (phrase_body phrase)) None None) ;;
  hits <- lift (resp_sources res) ;;
  match hits with
  | [] => ret FreeFalse
  | _ =>
      match schema with
      | Some schema' =>
          if truthy schema'
          then rows <- free_text_rows E user_id schema' hits ;; ret (FreeRows rows)
          else ret (FreeDocs hits)
      | None => ret (FreeDocs hits)
      end
  end.

(** ** Notions the properties are stated with *)

(** Every run of [m] ends in a world related by [R] to the one it started
    in. *)
Definition steps (R : relation world) {A} (m : M A) : Prop :=
  forall w, R w (m w).2.

(** The relation [R] admits the recording of [e]. *)
Definition admits (R : relation world) (e : event) : Prop :=
  forall w, R w (emit e w).

(** An event other than a call of [search] with a dict for schema. *)
Definition plain_event (e : event) : Prop :=
  match e with
  | CallSearch _ (Some (JObj _)) _ _ => False
  | _ => True
  end.

(** [w'] has the trace of [w] followed by events that all satisfy [P]. *)
Definition extends (P : event -> Prop) (w w' : world) : Prop :=
  exists evs, trace w' = trace w ++ evs /\ Forall P evs.

(** [w'] has the heap, the documents and the aliases of [w]. *)
Definition same_store (w w' : world) : Prop :=
  heap w' = heap w /\ docs w' = docs w /\ aliases w' = aliases w.

(** [f'] holds every identifier [f] holds. *)
Definition frontier_le (f f' : frontier) : Prop := f.1 ⊆ f'.1.

(** [n] rounds in a row, each of which leaves the frontier longer than it
    found it; the check list and the world after the last of them. *)
Inductive growing_rounds (E : environment)
    (srch : string -> option json -> option bool -> kwargs -> M response)
    (user_id schema_name : string) (pivot _md : bool)
  : nat -> list string -> list bool -> world -> world -> Prop :=
  | growing_none ids check_lst w :
      growing_rounds E srch user_id schema_name pivot _md 0 ids check_lst w w
  | growing_next n ids check_lst w ids1 check_lst1 w1 w2 :
      molecule_round E srch user_id schema_name pivot _md ids check_lst w
        = (Ok (ids1, check_lst1), w1) ->
      length ids < length ids1 ->
      growing_rounds E srch user_id schema_name pivot _md n ids1 check_lst1 w1 w2 ->
      growing_rounds E srch user_id schema_name pivot _md (S n) ids check_lst w w2.

(** [res['hits']['hits']] reduced to the sources, [[]] when [res] is false. *)
Definition response_hits (res : response) : list pydict :=
  match res with
  | RespHits hits => hits
  | RespEmpty => []
  end.

(** [e] is a call of [search] with the clause [c] as its schema. *)
Definition searches_clause (c : json) (e : event) : Prop :=
  match e with
  | CallSearch _ (Some c') _ _ => c' = c
  | _ => False
  end.

(** The schema arguments of the calls of [search] in a trace, in order. *)
Definition searched_schemas (evs : list event) : list (option json) :=
  omap (fun e => match e with
                 | CallSearch _ schema _ _ => Some schema
                 | EsSearch _ => None
                 end) evs.

(** The identifier a call of [set_tlpplus] hands back, if any. *)
Definition tlpplus_returned_id (r : tlpplus_result) : option string :=
  match r with
  | TlpFalse => None
  | TlpExisting md_id => Some md_id
  | TlpCreated md_id _ => Some md_id
  end.

(** The deployment on another calendar day. *)
Definition on_day (day : nat) (E : environment) : environment :=
  Environment day (get_deterministic_uuid E) (md_time_index E) (get_schema E)
    (get_all_schemas E) (es_search E) (es_auto_id E) (stix2_accepts E)
    (identity_id E) (os_group_id E) (pii_marking_id E).

(** The aliases left by [delete_alias root]. *)
Definition without_root (root : string) (w : world) : world :=
  with_aliases (filter (fun kv => String.prefix root kv.1 = false) (aliases w)) w.

(** ** A small deployment to evaluate the client on *)

Definition hex_digit (n : N) : ascii :=
  match String.get (N.to_nat n) "0123456789abcdef" with
  | Some c => c
  | None => "0"%char
  end.

Definition hex_of_ascii (c : ascii) : string :=
  let n := N_of_ascii c in
  String (hex_digit (n / 16)) (String (hex_digit (n mod 16)) EmptyString).

Fixpoint hex_of_string (s : string) : string :=
  match s with
  | EmptyString => EmptyString
  | String c r => hex_of_ascii c +:+ hex_of_string r
  end.

(** A stand-in for [get_deterministic_uuid]: the prefix followed by the seed
    in hexadecimal, so that different seeds give different identifiers. *)
Definition uuid_model (prefix seed : string) : string :=
  prefix +:+ hex_of_string seed.

(** The identifier [set_tlpplus] derives for a distribution list. *)
Definition tlpplus_id (E : environment) (ref_list : list string) : string :=
  get_deterministic_uuid E "marking-definition--" (py_str_list ref_list).

(** The marking definition [set_tlpplus] builds. *)
Definition tlpplus_marking (E : environment) (user_id tlp_ref : string)
    (ref_list : list string) : MarkingDefinition :=
  MkMarking "tlp-plus" (MkTLPPlus tlp_ref ref_list) (tlpplus_id E ref_list) user_id.

(** What the specification asks [distribution_refs] of the stored marking
    to be: the distribution set with the base classification, sorted and
    without repetition. *)
Definition spec_distribution_refs (tlp_ref : string) (items : list string) : json :=
  JList (JStr <$> py_sorted_set (items ++ [tlp_ref])).

(** An Elasticsearch server that answers its n-th search request with the
    n-th response of a script, cut to the [size] asked for, and with [{}]
    once the script is over. *)
Definition es_requests (evs : list event) : list es_request :=
  omap (fun e => match e with EsSearch rq => Some rq | _ => None end) evs.

(** The number of searches of one round: one with pivot, one per clause of
    the schema without. *)
Definition searches_per_round (E : environment) (schema_name : string)
    (pivot : bool) : nat :=
  if pivot then 1 else length (default [] (get_schema E schema_name)).

(** [org['id'].split('--')[1]] *)
Definition org_part (org : pydict) : result string :=
  let? org_id := jget_or_raise "id" org in jsplit_second org_id.

(** Where [es_index] files a document: under the id it is given, or under
    one of the server's making when that id is empty. *)
Definition filed_under (E : environment) (w : world) (k : string * string)
    : string * string :=
  (k.1, if String.eqb k.2 "" then es_auto_id E w else k.2).

(** Every document is filed under the index and the id that its own [id]
    names, neither of them empty. *)
Definition filed_by_id (w : world) : Prop :=
  forall k doc, docs w !! k = Some doc ->
    k.1 <> "" /\ k.2 <> "" /\
    exists id, jget "id" doc = Some (JStr id) /\ doc_key id = Ok k.

(** The [id] of [obj], when it has the form [type--uuid], has something
    after the [--]. *)
Definition names_its_document (obj : pydict) : Prop :=
  forall id k, jget "id" obj = Some (JStr id) -> doc_key id = Ok k -> k.2 <> "".

(** The objects [store_objects] is given. *)
Definition objects_given (objects : objects_arg) : list pydict :=
  match objects with
  | OneObject obj => [obj]
  | ObjectList objs => objs
  end.

(** [definition.distribution_refs] and [definition.tlp_marking_def_ref] of
    a marking definition. *)
Definition doc_definition_field (field : string) (doc : pydict) : option json :=
  match jget "definition" doc with
  | Some (JObj d) => jget field d
  | _ => None
  end.

(** Every run of [m] sends at most [n] search requests to the server. *)
Definition sends_at_most (n : nat) {A} (m : M A) : Prop :=
  forall w, exists evs,
    trace (m w).2 = trace w ++ evs /\ length (es_requests evs) <= n.

(** [w'] has the heap and the documents of [w], and every alias of [w] whose
    name does not start with [root], unchanged. *)
Definition keeps_other_aliases (root : string) (w w' : world) : Prop :=
  heap w' = heap w /\ docs w' = docs w /\
  forall name, String.prefix root name = false ->
    aliases w' !! name = aliases w !! name.

Definition cut_to_size (n : N) (r : response) : response :=
  match r with
  | RespHits hits => RespHits (take (N.to_nat n) hits)
  | RespEmpty => RespEmpty
  end.

Definition scripted (script : list response) (w : world) (rq : es_request)
    : result response :=
  Ok (cut_to_size (rq_size rq)
        (default RespEmpty (script !! length (es_requests (trace w))))).

(** A stand-in for [md_time_index]: the alias root names the index and the
    user, the date is the day number. *)
Definition md_time_index_model (day : nat) (user_id old_alias : string)
    : string * string :=
  (old_alias +:+ "--" +:+ default "" (split_dd user_id !! 1%nat), pretty day).

(** The clauses of the schemas of the examples. *)
Definition clause_identity : json := jobj1 "match" (jobj1 "type" (JStr "identity")).
Definition clause_part_of : json :=
  jobj1 "match" (jobj1 "relationship_type" (JStr "part-of")).

Definition schemas_model (name : string) : option (list json) :=
  if String.eqb name "org" then Some [clause_identity; clause_part_of]
  else None.

(** The marking types stix2 knows once [client.py] is loaded: its own [tlp]
    and [statement], and [x-tlpplus-marking], the name under which the
    decorator of [TLPPlusMarking] registers the custom marking. *)
Definition stix2_marking_types : list string :=
  ["tlp"; "statement"; "x-tlpplus-marking"].

(** A stand-in for [stix2.v21.MarkingDefinition(...)]: the constructor looks
    [definition_type] up among the marking types and raises when it is not
    one of them. *)
Definition stix2_model (md : MarkingDefinition) : bool :=
  bool_decide (definition_type md ∈ stix2_marking_types).

(** A stand-in for the ids the server makes up. *)
Definition auto_id_model (w : world) : string :=
  "auto-" +:+ pretty (size (docs w)).

(** A deployment: day [day], the server scripted by [script]. *)
Definition E_demo (day : nat) (script : list response) : environment :=
  Environment day uuid_model md_time_index_model schemas_model
    [[clause_identity; clause_part_of]]
    (scripted script) auto_id_model stix2_model
    "identity--sys" "grouping--os" "marking-definition--pii".

Definition E_plain : environment := E_demo 0 [].

(** Two callers' lists holding the same two identities in opposite orders. *)
Definition w_two_lists : world :=
  World {[ 1%nat := PyList ["identity--U1"; "identity--U2"];
           2%nat := PyList ["identity--U2"; "identity--U1"] ]} ∅ ∅ [].

Definition w_empty : world := World ∅ ∅ ∅ [].

(** A traversal without pivot over the schema [org] of [E_demo]: in the
    first round the first clause finds nothing and the second one finds
    [a--1]. *)
Definition pivot_off_run : result molecule_result * world :=
  get_molecule (E_demo 0 [RespEmpty; RespHits [[("id", JStr "a--1")]]])
    "identity--U1" ["a--0"] (JStr "org") None None (Some false) (Some false)
    w_empty.

(** The deployment of [pivot_off_run]. *)
Definition E_pivot_off : environment :=
  E_demo 0 [RespEmpty; RespHits [[("id", JStr "a--1")]]].

(** The objects of a small org chart: the user [identity--U1] is part of the
    organization [identity--O1]. *)
Definition user_U1 : pydict :=
  [("id", JStr "identity--U1"); ("type", JStr "identity");
   ("identity_class", JStr "individual")].
Definition org_O1 : pydict :=
  [("id", JStr "identity--O1"); ("type", JStr "identity");
   ("identity_class", JStr "organization")].
Definition rel_R1 : pydict :=
  [("id", JStr "relationship--R1"); ("type", JStr "relationship");
   ("relationship_type", JStr "part-of");
   ("source_ref", JStr "identity--U1"); ("target_ref", JStr "identity--O1")].


(** What the server answers while the policy of [identity--U1] is built: two
    rounds of the org chart traversal, its objects, and the marking
    definitions that name a criterion. *)
Definition policy_script : list response :=
  [ RespHits [[("id", JStr "identity--U1")];
              [("id", JStr "relationship--R1");
               ("source_ref", JStr "identity--U1");
               ("target_ref", JStr "identity--O1")]];
    RespHits [[("id", JStr "identity--U1")]; [("id", JStr "identity--O1")];
              [("id", JStr "relationship--R1");
               ("source_ref", JStr "identity--U1");
               ("target_ref", JStr "identity--O1")]];
    RespHits [user_U1; org_O1; rel_R1];
    RespHits [[("id", JStr "marking-definition--M1")]] ].

(** The deployment on [day], its server ready to build the policy twice. *)
Definition E_policy (day : nat) : environment :=
  E_demo day (policy_script ++ policy_script).

(** A store with the open-group object and the alias [intel]. *)
Definition w_policy : world :=
  World ∅
    {[ ("grouping", "os") :=
         [("id", JStr "grouping--os"); ("type", JStr "grouping");
          ("object_refs", JList [JStr "marking-definition--white"])] ]}
    {[ "intel" := Alias ["identity"; "relationship"] None ]}
    [].

(** A free-text query, as [get_free_text] sends it. *)
Definition phrase_query : json :=
  jobj1 "query" (jobj1 "multi_match" (jobj1 "query" (JStr "apt"))).

(** A server that finds one more identifier in each of four rounds. *)
Definition growing_script : list response :=
  [ RespHits [[("id", JStr "a--1")]]; RespHits [[("id", JStr "a--2")]];
    RespHits [[("id", JStr "a--3")]]; RespHits [[("id", JStr "a--4")]] ].

(** A server that answers the first round with the seed itself and the
    closing search with the object of the seed. *)
Definition fixpoint_script : list response :=
  [ RespHits [[("id", JStr "identity--U1")]]; RespHits [user_U1] ].

(** Two callers' lists holding the same two identities in the same order. *)
Definition w_same_lists : world :=
  World {[ 1%nat := PyList ["identity--U1"; "identity--U2"];
           2%nat := PyList ["identity--U1"; "identity--U2"] ]} ∅ ∅ [].

(** The tlp+ marking of TLP AMBER for the list [identity--U1, identity--U2],
    as a document of the store. *)
Definition marking_U1_U2 : pydict :=
  serialize (MkMarking "tlp-plus"
               (MkTLPPlus TLP_AMBER_id ["identity--U1"; "identity--U2"])
               (uuid_model "marking-definition--"
                  (py_str_list ["identity--U1"; "identity--U2"]))
               "identity--U1").

(** The document id of [marking_U1_U2]. *)
Definition doc_U1_U2 : string :=
  "5b276964656e746974792d2d5531272c20276964656e746974792d2d5532275d".

(** The callers' lists of [w_two_lists] and of [w_same_lists] over a store
    that holds [marking_U1_U2]. *)
Definition w_marked : world :=
  with_docs {[ ("marking-definition", doc_U1_U2) := marking_U1_U2 ]} w_two_lists.
Definition w_marked_same : world :=
  with_docs {[ ("marking-definition", doc_U1_U2) := marking_U1_U2 ]} w_same_lists.

(** The store of [w_policy] with a view of [identity--U1] left from day 0. *)
Definition w_stale : world :=
  with_aliases (<["intel--U1--0" := Alias ["identity"] None]> (aliases w_policy))
    w_policy.

(** The server of [E_policy], then one document for a phrase search. *)
Definition E_phrase (day : nat) : environment :=
  E_demo day (policy_script ++ [RespHits [user_U1; org_O1]]).

(** * Properties *)

Ltac run_M :=
  unfold bind, ret, raise, lift, read_heap, heap_append, es_exists, es_index; simpl.

(** ** The marking manager *)

Lemma valid_base tlp_ref :
  tlp_ref = TLP_AMBER_id \/ tlp_ref = TLP_RED_id ->
  (negb (String.eqb tlp_ref TLP_AMBER_id) &&
   negb (String.eqb tlp_ref TLP_RED_id))%bool = false.
Proof. by intros [-> | ->]. Qed.

(** A call that passes the three checks appends to the caller's list and
    goes on with the list as it was. *)
Lemma set_tlpplus_valid (E : environment) (user_id tlp_ref : string) (l : nat)
    (items : list string) (w : world) :
  split_first user_id = "identity" ->
  heap w !! l = Some (PyList items) ->
  tlp_ref = TLP_AMBER_id \/ tlp_ref = TLP_RED_id ->
  set_tlpplus E user_id tlp_ref l w =
    (doc_id <- lift (split_second (tlpplus_id E items)) ;;
     found <- es_exists "marking-definition" doc_id ;;
     if found then ret (TlpExisting (tlpplus_id E items)) else
     new_md <- build_marking E tlp_ref items (tlpplus_id E items) user_id ;;
     stored <- store_objects E (OneObject (serialize new_md)) ;;
     if negb stored then ret TlpFalse
     else ret (TlpCreated (tlpplus_id E items) (serialize new_md)))
      (with_heap (<[l := PyList (items ++ [tlp_ref])]> (heap w)) w).
Proof.
  intros Huser Hl Htlp. unfold set_tlpplus. rewrite Huser, String.eqb_refl.
  cbn [negb]. unfold bind at 1. unfold read_heap. rewrite Hl, (valid_base _ Htlp).
  unfold bind at 1. unfold heap_append. by rewrite Hl.
Qed.

Lemma es_exists_marking doc_id w :
  doc_id <> "" ->
  es_exists "marking-definition" doc_id w =
    (Ok (bool_decide (is_Some (docs w !! ("marking-definition", doc_id)))), w).
Proof.
  intros Hne. unfold es_exists. simpl.
  by rewrite (proj2 (String.eqb_neq doc_id "") Hne).
Qed.

Lemma set_tlpplus_existing (E : environment) (user_id tlp_ref : string) (l : nat)
    (items : list string) (doc_id : string) (w : world) :
  split_first user_id = "identity" ->
  heap w !! l = Some (PyList items) ->
  tlp_ref = TLP_AMBER_id \/ tlp_ref = TLP_RED_id ->
  split_second (tlpplus_id E items) = Ok doc_id ->
  doc_id <> "" ->
  is_Some (docs w !! ("marking-definition", doc_id)) ->
  set_tlpplus E user_id tlp_ref l w =
    (Ok (TlpExisting (tlpplus_id E items)),
     with_heap (<[l := PyList (items ++ [tlp_ref])]> (heap w)) w).
Proof.
  intros Huser Hl Htlp Hid Hne Hold.
  rewrite (set_tlpplus_valid E user_id tlp_ref l items) by done.
  unfold bind at 1. unfold lift. rewrite Hid.
  unfold bind at 1. rewrite es_exists_marking by done.
  by rewrite bool_decide_eq_true_2.
Qed.

Lemma set_tlpplus_refused (E : environment) (user_id tlp_ref : string) (l : nat)
    (items : list string) (doc_id : string) (w : world) :
  split_first user_id = "identity" ->
  heap w !! l = Some (PyList items) ->
  tlp_ref = TLP_AMBER_id \/ tlp_ref = TLP_RED_id ->
  split_second (tlpplus_id E items) = Ok doc_id ->
  doc_id <> "" ->
  docs w !! ("marking-definition", doc_id) = None ->
  stix2_accepts E (tlpplus_marking E user_id tlp_ref items) = false ->
  set_tlpplus E user_id tlp_ref l w =
    (Raise StixError,
     with_heap (<[l := PyList (items ++ [tlp_ref])]> (heap w)) w).
Proof.
  intros Huser Hl Htlp Hid Hne Hnew Hno.
  rewrite (set_tlpplus_valid E user_id tlp_ref l items) by done.
  unfold bind at 1. unfold lift. rewrite Hid.
  unfold bind at 1. rewrite es_exists_marking by done. simpl.
  rewrite Hnew. rewrite bool_decide_eq_false_2 by (by intros [? ?]).
  unfold bind, build_marking. fold (tlpplus_marking E user_id tlp_ref items).
  by rewrite Hno.
Qed.

(** What [store_object] does to the world, whatever it returns: nothing, or
    one document written. *)
Lemma store_object_writes E obj w :
  (store_object E obj w).2 = w \/
  exists k, (store_object E obj w).2 = with_docs (<[k := obj]> (docs w)) w.
Proof.
  unfold store_object, jget_or_raise, bind, lift.
  destruct (jget "id" obj) as [[id | ? | ?] |]; simpl; auto.
  unfold index_or_raise.
  destruct (split_dd id !! 0%nat) as [i0 |]; simpl; auto.
  destruct (split_dd id !! 1%nat) as [i1 |]; simpl; auto.
  unfold es_index. destruct (String.eqb i0 ""); simpl; auto.
  right. eexists. by destruct (_ || _)%bool.
Qed.

(** Every document a call of [set_tlpplus] writes is the marking built from
    the caller's list as it was before the call. *)
Lemma set_tlpplus_writes E user_id tlp_ref l w k doc :
  docs (set_tlpplus E user_id tlp_ref l w).2 !! k = Some doc ->
  docs w !! k <> Some doc ->
  exists items, heap w !! l = Some (PyList items) /\
    doc = serialize (tlpplus_marking E user_id tlp_ref items).
Proof.
  unfold set_tlpplus.
  destruct (negb (String.eqb (split_first user_id) "identity")); [done |].
  unfold bind at 1. unfold read_heap.
  destruct (heap w !! l) as [[items |] |] eqn:Hl; [| done | done].
  destruct (_ && _)%bool; [done |].
  unfold bind at 1. unfold heap_append. rewrite Hl.
  unfold bind at 1. unfold lift.
  destruct (split_second _) as [doc_id |]; [| done].
  unfold bind at 1. unfold es_exists.
  destruct (_ || _)%bool; [done |]. simpl.
  destruct (bool_decide _); [done |].
  unfold bind at 1. unfold build_marking.
  destruct (stix2_accepts E _); [| done]. unfold ret at 1.
  unfold bind, store_objects.
  fold (tlpplus_id E items). fold (tlpplus_marking E user_id tlp_ref items).
  destruct (store_object_writes E
              (serialize (tlpplus_marking E user_id tlp_ref items))
              (with_heap (<[l := PyList (items ++ [tlp_ref])]> (heap w)) w))
    as [Hw | [k' Hw]];
    destruct (store_object E _ _) as [[[] | e] w']; simpl in *; subst w'; simpl;
    try done.
  all: intros Hk Hold; exists items; split; [done |];
    destruct (decide (k' = k)) as [-> |];
    [ rewrite lookup_insert_eq in Hk; by injection Hk as <-
    | by rewrite lookup_insert_ne in Hk ].
Qed.

(** The identifier a call hands back is the one derived from the caller's
    list as it was before the call. *)
Lemma set_tlpplus_returned E user_id tlp_ref l w r w' md_id :
  set_tlpplus E user_id tlp_ref l w = (Ok r, w') ->
  tlpplus_returned_id r = Some md_id ->
  exists items, heap w !! l = Some (PyList items) /\ md_id = tlpplus_id E items.
Proof.
  unfold set_tlpplus.
  destruct (negb (String.eqb (split_first user_id) "identity")).
  { by intros [= <- <-]. }
  unfold bind at 1. unfold read_heap.
  destruct (heap w !! l) as [[items |] |] eqn:Hl; try by intros [= <- <-].
  destruct (_ && _)%bool; [by intros [= <- <-] |].
  unfold bind at 1. unfold heap_append. rewrite Hl.
  unfold bind at 1. unfold lift.
  destruct (split_second _) as [doc_id |]; [| done].
  unfold bind at 1. unfold es_exists.
  destruct (_ || _)%bool; [done |]. simpl.
  destruct (bool_decide _).
  { intros [= <- <-] [= <-]. by exists items. }
  unfold bind at 1. unfold build_marking.
  destruct (stix2_accepts E _); [| done]. unfold ret at 1.
  unfold bind. destruct (store_object E _ _) as [[[] | e] w1]; [| | done].
  - intros [= <- <-] [= <-]. by exists items.
  - by intros [= <- <-].
Qed.

(** C1 (the code at the failing input): over a store that holds the marking
    for a distribution list, a call of [set_tlpplus] with that list returns
    the identifier of the stored marking; a second call with the same base
    classification and the same distribution set listed in another order,
    whose seed the identifier helper tells apart from the first, never
    returns that identifier: it looks for a marking of its own, and where
    stix2 refuses to build one it raises. *)
Theorem set_tlpplus_reordered_list_misses_marking (E : environment)
    (user_id tlp_ref : string) (l1 l2 : nat) (items1 items2 : list string)
    (d1 : string) (w : world) :
  split_first user_id = "identity" ->
  tlp_ref = TLP_AMBER_id \/ tlp_ref = TLP_RED_id ->
  l1 <> l2 ->
  heap w !! l1 = Some (PyList items1) ->
  heap w !! l2 = Some (PyList items2) ->
  items1 ≡ₚ items2 ->
  split_second (tlpplus_id E items1) = Ok d1 ->
  d1 <> "" ->
  is_Some (docs w !! ("marking-definition", d1)) ->
  tlpplus_id E items2 <> tlpplus_id E items1 ->
  exists w1,
    set_tlpplus E user_id tlp_ref l1 w =
      (Ok (TlpExisting (tlpplus_id E items1)), w1) /\
    docs w1 = docs w /\
    (forall r, (set_tlpplus E user_id tlp_ref l2 w1).1 = Ok r ->
       tlpplus_returned_id r <> Some (tlpplus_id E items1)) /\
    (forall d2,
       split_second (tlpplus_id E items2) = Ok d2 -> d2 <> "" ->
       docs w !! ("marking-definition", d2) = None ->
       stix2_accepts E (tlpplus_marking E user_id tlp_ref items2) = false ->
       set_tlpplus E user_id tlp_ref l2 w1 =
         (Raise StixError,
          with_heap (<[l2 := PyList (items2 ++ [tlp_ref])]> (heap w1)) w1)).
Proof.
  intros Huser Htlp Hl Hl1 Hl2 _ Hd1 Hne1 Hold Hids.
  eexists. split.
  { by apply (set_tlpplus_existing E user_id tlp_ref l1 items1 d1 w). }
  assert (Hl2' : heap (with_heap (<[l1 := PyList (items1 ++ [tlp_ref])]> (heap w)) w)
                   !! l2 = Some (PyList items2)).
  { simpl. by rewrite lookup_insert_ne. }
  split; [done |]. split.
  - intros r Hr Hid.
    destruct (set_tlpplus E user_id tlp_ref l2 _) as [res w2] eqn:Hrun.
    simpl in Hr. subst res.
    destruct (set_tlpplus_returned _ _ _ _ _ _ _ _ Hrun Hid) as (items & Hitems & Heq).
    rewrite Hl2' in Hitems. injection Hitems as <-. done.
  - intros d2 Hd2 Hne2 Hnew Hno.
    by apply (set_tlpplus_refused E user_id tlp_ref l2 items2 d2).
Qed.

Lemma set_tlpplus_reordered_list_misses_marking_witness :
  exists w1,
    set_tlpplus E_plain "identity--U1" TLP_AMBER_id 1 w_marked =
      (Ok (TlpExisting (tlpplus_id E_plain ["identity--U1"; "identity--U2"])), w1) /\
    docs w1 = docs w_marked /\
    set_tlpplus E_plain "identity--U1" TLP_AMBER_id 2 w1 =
      (Raise StixError,
       with_heap (<[2%nat := PyList (["identity--U2"; "identity--U1"] ++ [TLP_AMBER_id])]>
                    (heap w1)) w1) /\
    (forall r, (set_tlpplus E_plain "identity--U1" TLP_AMBER_id 2 w1).1 = Ok r ->
       tlpplus_returned_id r
         <> Some (tlpplus_id E_plain ["identity--U1"; "identity--U2"])).
Proof.
  destruct (set_tlpplus_reordered_list_misses_marking E_plain
              "identity--U1" TLP_AMBER_id 1 2
              ["identity--U1"; "identity--U2"] ["identity--U2"; "identity--U1"]
              doc_U1_U2 w_marked)
    as (w1 & Hfirst & Hdocs & Hmiss & Hraise).
  - reflexivity.
  - left; reflexivity.
  - lia.
  - reflexivity.
  - reflexivity.
  - apply perm_swap.
  - vm_compute; reflexivity.
  - discriminate.
  - by eexists.
  - vm_compute; discriminate.
  - exists w1. split; [exact Hfirst |]. split; [exact Hdocs |].
    split; [| exact Hmiss].
    apply (Hraise "5b276964656e746974792d2d5532272c20276964656e746974792d2d5531275d").
    + vm_compute; reflexivity.
    + discriminate.
    + reflexivity.
    + reflexivity.
Defined.

(** X2: over a store that holds the marking for a distribution list, two
    calls of [set_tlpplus] with the same base classification and two lists
    that hold the same identities in the same order both return the
    identifier of the stored marking; nothing is stored, and each caller's
    list has the base classification appended. *)
Lemma set_tlpplus_same_order_twice (E : environment)
    (user_id tlp_ref : string) (l1 l2 : nat) (items : list string)
    (doc_id : string) (w : world) :
  split_first user_id = "identity" ->
  tlp_ref = TLP_AMBER_id \/ tlp_ref = TLP_RED_id ->
  l1 <> l2 ->
  heap w !! l1 = Some (PyList items) ->
  heap w !! l2 = Some (PyList items) ->
  split_second (tlpplus_id E items) = Ok doc_id ->
  doc_id <> "" ->
  is_Some (docs w !! ("marking-definition", doc_id)) ->
  exists w1 w2,
    set_tlpplus E user_id tlp_ref l1 w =
      (Ok (TlpExisting (tlpplus_id E items)), w1) /\
    set_tlpplus E user_id tlp_ref l2 w1 =
      (Ok (TlpExisting (tlpplus_id E items)), w2) /\
    docs w2 = docs w /\
    heap w2 = <[l2 := PyList (items ++ [tlp_ref])]>
                (<[l1 := PyList (items ++ [tlp_ref])]> (heap w)).
Proof.
  intros Huser Htlp Hl Hl1 Hl2 Hid Hne Hold.
  eexists _, _. split.
  { by apply (set_tlpplus_existing E user_id tlp_ref l1 items doc_id w). }
  split.
  { apply (set_tlpplus_existing E user_id tlp_ref l2 items doc_id); try done.
    simpl. by rewrite lookup_insert_ne. }
  done.
Qed.

Lemma set_tlpplus_same_order_twice_witness :
  exists w1 w2,
    set_tlpplus E_plain "identity--U1" TLP_AMBER_id 1 w_marked_same =
      (Ok (TlpExisting (tlpplus_id E_plain ["identity--U1"; "identity--U2"])), w1) /\
    set_tlpplus E_plain "identity--U1" TLP_AMBER_id 2 w1 =
      (Ok (TlpExisting (tlpplus_id E_plain ["identity--U1"; "identity--U2"])), w2) /\
    docs w2 = docs w_marked_same /\
    heap w2 =
      <[2%nat := PyList (["identity--U1"; "identity--U2"] ++ [TLP_AMBER_id])]>
        (<[1%nat := PyList (["identity--U1"; "identity--U2"] ++ [TLP_AMBER_id])]>
           (heap w_marked_same)).
Proof.
  apply (set_tlpplus_same_order_twice E_plain "identity--U1" TLP_AMBER_id 1 2
           ["identity--U1"; "identity--U2"] doc_U1_U2).
  - reflexivity.
  - left; reflexivity.
  - lia.
  - reflexivity.
  - reflexivity.
  - vm_compute; reflexivity.
  - discriminate.
  - by eexists.
Defined.

#[local] Instance JStr_inj : Inj (=) (=) JStr.
Proof. by intros x y [= ->]. Qed.

(** C2 (the code at the failing input): on a first-time call with a valid
    base classification and a list that is not already the sorted set with
    the base classification, (a) whatever stix2 does, no document the call
    writes has that sorted set for [distribution_refs]: a document it
    writes carries the caller's list as it was given; (b) where stix2
    refuses the marking, as it does for the definition type [tlp-plus] that
    [client.py] does not register, the call raises after having appended to
    the caller's list, and stores nothing. *)
Theorem set_tlpplus_first_time_stores_no_canonical_list (E : environment)
    (user_id tlp_ref : string) (l : nat) (items : list string)
    (doc_id : string) (w : world) :
  split_first user_id = "identity" ->
  heap w !! l = Some (PyList items) ->
  tlp_ref = TLP_AMBER_id \/ tlp_ref = TLP_RED_id ->
  split_second (tlpplus_id E items) = Ok doc_id ->
  doc_id <> "" ->
  docs w !! ("marking-definition", doc_id) = None ->
  py_sorted_set (items ++ [tlp_ref]) <> items ->
  (forall k doc,
     docs (set_tlpplus E user_id tlp_ref l w).2 !! k = Some doc ->
     docs w !! k <> Some doc ->
     doc_definition_field "distribution_refs" doc = Some (JList (JStr <$> items)) /\
     doc_definition_field "distribution_refs" doc
       <> Some (spec_distribution_refs tlp_ref items)) /\
  (stix2_accepts E (tlpplus_marking E user_id tlp_ref items) = false ->
   set_tlpplus E user_id tlp_ref l w =
     (Raise StixError,
      with_heap (<[l := PyList (items ++ [tlp_ref])]> (heap w)) w)).
Proof.
  intros Huser Hl Htlp Hid Hne Hnew Hcanon. split.
  - intros k doc Hk Hold.
    destruct (set_tlpplus_writes _ _ _ _ _ _ _ Hk Hold) as (items' & Hitems & ->).
    rewrite Hl in Hitems. injection Hitems as <-.
    split; [done |]. unfold doc_definition_field, spec_distribution_refs. simpl.
    intros [= Heq]. apply (inj (fmap JStr)) in Heq. by apply Hcanon.
  - intros Hno. by apply (set_tlpplus_refused E user_id tlp_ref l items doc_id).
Qed.

Lemma set_tlpplus_first_time_stores_no_canonical_list_witness :
  set_tlpplus E_plain "identity--U1" TLP_AMBER_id 2 w_two_lists =
    (Raise StixError,
     with_heap (<[2%nat := PyList (["identity--U2"; "identity--U1"] ++ [TLP_AMBER_id])]>
                  (heap w_two_lists)) w_two_lists) /\
  docs (set_tlpplus E_plain "identity--U1" TLP_AMBER_id 2 w_two_lists).2 = ∅ /\
  spec_distribution_refs TLP_AMBER_id ["identity--U2"; "identity--U1"] =
    JList [JStr "identity--U1"; JStr "identity--U2"; JStr TLP_AMBER_id] /\
  (forall k doc,
     docs (set_tlpplus E_plain "identity--U1" TLP_AMBER_id 2 w_two_lists).2 !! k
       = Some doc ->
     docs w_two_lists !! k <> Some doc ->
     doc_definition_field "distribution_refs" doc
       = Some (JList (JStr <$> ["identity--U2"; "identity--U1"])) /\
     doc_definition_field "distribution_refs" doc
       <> Some (spec_distribution_refs TLP_AMBER_id ["identity--U2"; "identity--U1"])).
Proof.
  destruct (set_tlpplus_first_time_stores_no_canonical_list E_plain
              "identity--U1" TLP_AMBER_id 2 ["identity--U2"; "identity--U1"]
              "5b276964656e746974792d2d5532272c20276964656e746974792d2d5531275d"
              w_two_lists)
    as [Hwrites Hraise].
  - reflexivity.
  - reflexivity.
  - left; reflexivity.
  - vm_compute; reflexivity.
  - discriminate.
  - reflexivity.
  - vm_compute; discriminate.
  - split; [apply Hraise; reflexivity |].
    split; [by rewrite Hraise |]. split; [vm_compute; reflexivity | exact Hwrites].
Defined.

(** C9: a call of [set_tlpplus] that returns a marking identifier leaves the
    caller's list object with the base TLP marking id appended, while the
    identifier is derived from, and a newly stored marking is built from,
    the list as it was before the call. *)
Theorem set_tlpplus_appends_to_callers_list (E : environment)
    (user_id tlp_ref : string) (l : nat) (w w' : world) (r : tlpplus_result)
    (md_id : string) :
  set_tlpplus E user_id tlp_ref l w = (Ok r, w') ->
  tlpplus_returned_id r = Some md_id ->
  exists items,
    heap w !! l = Some (PyList items) /\
    heap w' !! l = Some (PyList (items ++ [tlp_ref])) /\
    md_id = get_deterministic_uuid E "marking-definition--" (py_str_list items) /\
    (forall md_json, r = TlpCreated md_id md_json ->
       md_json = serialize (tlpplus_marking E user_id tlp_ref items) /\
       distribution_refs (definition (tlpplus_marking E user_id tlp_ref items)) = items /\
       exists index_name doc_id,
         docs w' !! (index_name, doc_id) = Some md_json).
Proof.
  unfold set_tlpplus.
  destruct (negb (String.eqb (split_first user_id) "identity")).
  { intros [= <- <-]; discriminate. }
  unfold bind at 1. unfold read_heap.
  destruct (heap w !! l) as [[items |] |] eqn:Hl;
    try (intros [= <- <-]; discriminate).
  destruct (negb (String.eqb tlp_ref TLP_AMBER_id) &&
            negb (String.eqb tlp_ref TLP_RED_id))%bool.
  { intros [= <- <-]; discriminate. }
  unfold bind at 1. unfold heap_append. rewrite Hl.
  unfold bind at 1. unfold lift.
  destruct (split_second _) as [doc_id |] eqn:Hdoc; [| done].
  unfold bind at 1. unfold es_exists.
  destruct (_ || _)%bool; [done |]. simpl.
  case_bool_decide as Hex.
  { intros [= <- <-] [= <-]. exists items. simpl. rewrite lookup_insert_eq.
    repeat split; try done. }
  unfold bind at 1. unfold build_marking. fold (tlpplus_id E items).
  fold (tlpplus_marking E user_id tlp_ref items).
  destruct (stix2_accepts E _); [| done]. unfold ret at 1.
  unfold store_objects, store_object, jget_or_raise, index_or_raise. simpl.
  unfold bind, lift, ret. simpl.
  destruct (split_dd (tlpplus_id E items) !! 0%nat) as [i0 |]; [| done].
  destruct (split_dd (tlpplus_id E items) !! 1%nat) as [i1 |]; [| done].
  unfold es_index. destruct (String.eqb i0 ""); [done |].
  assert (Hres : forall b : bool,
            (String.eqb (if b then "updated" else "created") "created" ||
             String.eqb (if b then "updated" else "created") "updated")%bool = true)
    by (by intros []).
  rewrite Hres. simpl.
  intros [= <- <-] [= <-]. exists items. simpl. rewrite lookup_insert_eq.
  split; [done |]. split; [done |]. split; [done |].
  intros md_json [= <-]. split; [done |]. split; [done |].
  eexists i0, _. by rewrite lookup_insert_eq.
Qed.

Lemma set_tlpplus_appends_to_callers_list_witness :
  exists items,
    heap w_marked !! 1%nat = Some (PyList items) /\
    heap (set_tlpplus E_plain "identity--U1" TLP_RED_id 1 w_marked).2 !! 1%nat
      = Some (PyList (items ++ [TLP_RED_id])) /\
    tlpplus_id E_plain ["identity--U1"; "identity--U2"] =
      get_deterministic_uuid E_plain "marking-definition--" (py_str_list items) /\
    (forall md_json,
       TlpExisting (tlpplus_id E_plain ["identity--U1"; "identity--U2"])
       = TlpCreated (tlpplus_id E_plain ["identity--U1"; "identity--U2"]) md_json ->
       md_json = serialize (tlpplus_marking E_plain "identity--U1" TLP_RED_id items) /\
       distribution_refs
         (definition (tlpplus_marking E_plain "identity--U1" TLP_RED_id items)) = items /\
       exists index_name doc_id,
         docs (set_tlpplus E_plain "identity--U1" TLP_RED_id 1 w_marked).2
           !! (index_name, doc_id) = Some md_json).
Proof.
  apply (set_tlpplus_appends_to_callers_list E_plain "identity--U1" TLP_RED_id 1
           w_marked _ _ (tlpplus_id E_plain ["identity--U1"; "identity--U2"])).
  - vm_compute; reflexivity.
  - reflexivity.
Defined.

(** ** The mutual calls of [search] and [get_id_markings] *)

(** A search with [_md=False] never calls [get_id_markings]: whatever stands
    for it, the search is the same. So the searches [get_id_markings] makes
    (all of them with [_md=False]) are those of [search] itself. *)
Lemma search_via_unmarked (E : environment)
    (g1 g2 : string -> string -> M pyidx) (user_id : string)
    (schema : option json) (kw : kwargs) :
  search_via E g1 user_id schema (Some false) kw =
  search_via E g2 user_id schema (Some false) kw.
Proof. reflexivity. Qed.

(** ** Worlds related across a call *)

#[local] Instance extends_refl P : Reflexive (extends P).
Proof. intros w. exists []. by rewrite app_nil_r. Qed.

#[local] Instance extends_trans P : Transitive (extends P).
Proof.
  intros w1 w2 w3 (evs1 & H1 & HP1) (evs2 & H2 & HP2).
  exists (evs1 ++ evs2). rewrite H2, H1, app_assoc. split; [done |].
  by apply Forall_app.
Qed.

#[local] Instance same_store_refl : Reflexive same_store.
Proof. by intros w. Qed.

#[local] Instance same_store_trans : Transitive same_store.
Proof.
  intros w1 w2 w3 (H1 & H2 & H3) (H4 & H5 & H6).
  repeat split; congruence.
Qed.

Section Steps.

Variable R : relation world.
Hypothesis R_refl : Reflexive R.
Hypothesis R_trans : Transitive R.

Lemma steps_ret {A} (a : A) : steps R (ret a).
Proof. intros w. simpl. reflexivity. Qed.

Lemma steps_raise {A} (e : exn) : steps R (raise (A := A) e).
Proof. intros w. simpl. reflexivity. Qed.

Lemma steps_lift {A} (r : result A) : steps R (lift r).
Proof. intros w. simpl. reflexivity. Qed.

Lemma steps_bind {A B} (m : M A) (k : A -> M B) :
  steps R m -> (forall a, steps R (k a)) -> steps R (bind m k).
Proof.
  intros Hm Hk w. unfold bind. specialize (Hm w).
  destruct (m w) as [[a | e] w1]; simpl in *; [| done].
  etrans; [exact Hm | apply Hk].
Qed.

Lemma steps_bind_ret {A B} (a : A) (k : A -> M B) :
  steps R (k a) -> steps R (bind (ret a) k).
Proof. intros Hk w. apply Hk. Qed.

Lemma steps_bind_lift {A B} (r : result A) (k : A -> M B) :
  (forall a, r = Ok a -> steps R (k a)) -> steps R (bind (lift r) k).
Proof.
  intros Hk w. destruct r as [a | e]; [by apply Hk |]. simpl. reflexivity.
Qed.

Lemma steps_log_event (e : event) : admits R e -> steps R (log_event e).
Proof. intros He w. apply He. Qed.

Lemma steps_super_search (E : environment) (rq : es_request) :
  admits R (EsSearch rq) -> steps R (super_search E rq).
Proof. intros He w. apply He. Qed.

Lemma steps_es_mget keys : steps R (es_mget keys).
Proof. intros w. simpl. reflexivity. Qed.

Lemma steps_search_via (E : environment) gim user_id schema _md kw :
  (forall index, steps R (gim user_id index)) ->
  admits R (CallSearch user_id schema _md kw) ->
  (forall rq, admits R (EsSearch rq)) ->
  steps R (search_via E gim user_id schema _md kw).
Proof.
  intros Hgim Hcall Hes. unfold search_via.
  apply steps_bind; [by apply steps_log_event |]. intros _.
  destruct (_ && _)%bool; [by apply steps_super_search |].
  apply steps_bind.
  { destruct _md as [[] |]; (apply Hgim || apply steps_ret). }
  intros index. apply steps_bind; [| intros; by apply steps_super_search].
  destruct schema as [schema' |]; [| apply steps_ret].
  destruct (truthy schema'); [| apply steps_ret].
  apply steps_bind; [apply steps_lift |]. intros ?.
  apply steps_bind; [apply steps_lift |]. intros ?. apply steps_ret.
Qed.

Section Traversal_steps.

Variable E : environment.
Variable srch : string -> option json -> option bool -> kwargs -> M response.
Variables (user_id schema_name : string) (objs : option bool) (query : option json).
Variables (pivot _md : bool).

(** The schemas whose search is known to respect the relation. *)
Variable ok : json -> Prop.
Hypothesis srch_steps :
  forall schema kw, ok schema -> steps R (srch user_id (Some schema) (Some _md) kw).

Lemma steps_for_schemas q schemas count ids check_lst :
  Forall ok schemas ->
  steps R (for_schemas srch user_id pivot _md q schemas count ids check_lst).
Proof.
  intros Hok. revert count ids check_lst.
  induction Hok as [| schema rest Hs Hrest IH]; intros count ids check_lst; simpl.
  { apply steps_ret. }
  destruct (_ && _)%bool; [apply IH |].
  apply steps_bind; [by apply srch_steps |]. intros res. apply IH.
Qed.

Hypothesis ok_name : ok (JStr schema_name).
Hypothesis ok_clauses :
  pivot = false ->
  forall clauses, get_schema E schema_name = Some clauses -> Forall ok clauses.

Lemma steps_molecule_round ids check_lst :
  steps R (molecule_round E srch user_id schema_name pivot _md ids check_lst).
Proof.
  unfold molecule_round.
  apply steps_bind_lift. intros q _.
  assert (Hout : forall schemas, Forall ok schemas ->
            steps R (out <- for_schemas srch user_id pivot _md q schemas 0
                            (ids, false) check_lst ;;
                   if out.1.2 then raise TypeError
                   else ret (py_list_set out.1.1, out.2))).
  { intros schemas Hok. apply steps_bind; [by apply steps_for_schemas |].
    intros out. destruct (out.1.2); [apply steps_raise | apply steps_ret]. }
  destruct pivot eqn:Hpivot.
  - apply steps_bind_ret. apply Hout. by constructor.
  - apply steps_bind_lift. intros clauses Hc. apply Hout.
    apply ok_clauses; [done |]. simpl in Hc.
    by destruct (get_schema E schema_name) as [cl |]; [injection Hc as -> |].
Qed.

Lemma steps_molecule_finish ids :
  steps R (molecule_finish srch user_id schema_name objs query _md ids).
Proof.
  unfold molecule_finish. destruct (negb _); [apply steps_ret |].
  apply steps_bind_lift. intros q _.
  apply steps_bind; [by apply srch_steps |]. intros res. apply steps_ret.
Qed.

Lemma steps_molecule_loop fuel failed ids check_lst :
  steps R (molecule_loop E srch user_id schema_name objs query pivot _md
           fuel failed ids check_lst).
Proof.
  revert failed ids check_lst.
  induction fuel as [| fuel IH]; intros failed ids check_lst; simpl.
  { apply steps_raise. }
  apply steps_bind; [apply steps_molecule_round |]. intros out.
  destruct (decide _); [apply steps_molecule_finish |].
  destruct (decide _); [apply steps_ret | apply IH].
Qed.

End Traversal_steps.

Lemma steps_get_molecule_via (E : environment) srch user_id stix_ids schema_name
    objs query pivot _md (ok : json -> Prop) :
  (forall schema md kw, ok schema -> steps R (srch user_id (Some schema) (Some md) kw)) ->
  (forall s, ok (JStr s)) ->
  (pivot = Some false ->
   forall s clauses, get_schema E s = Some clauses -> Forall ok clauses) ->
  steps R (get_molecule_via E srch user_id stix_ids schema_name objs query pivot _md).
Proof.
  intros Hsrch Hname Hclauses. unfold get_molecule_via.
  destruct schema_name as [s | |]; try apply steps_ret.
  apply (steps_molecule_loop _ _ _ _ _ _ _ _ ok); [by auto | by auto |].
  intros Hpv clauses Hc. apply (Hclauses ltac:(by destruct pivot as [[] |]) s clauses Hc).
Qed.

Lemma steps_get_objects user_id obj_ids : steps R (get_objects user_id obj_ids).
Proof.
  unfold get_objects. destruct obj_ids; [apply steps_ret |].
  destruct (negb _); [apply steps_ret |].
  apply steps_bind_lift. intros keys _.
  apply steps_bind; [apply steps_es_mget |]. intros res. apply steps_ret.
Qed.

Lemma steps_get_object user_id obj_id : steps R (get_object user_id obj_id).
Proof.
  unfold get_object. apply steps_bind; [apply steps_get_objects |].
  intros [[| doc [|]] |]; apply steps_ret.
Qed.

Hypothesis R_plain : forall e, plain_event e -> admits R e.

Lemma steps_search_unmarked (E : environment) user_id schema _md kw :
  plain_event (CallSearch user_id schema (Some _md) kw) ->
  steps R (search_via E no_policy user_id schema (Some _md) kw).
Proof.
  intros Hp. apply steps_search_via.
  - intros index. apply steps_ret.
  - by apply R_plain.
  - intros rq. by apply R_plain.
Qed.

Lemma steps_visibility_filter (E : environment) user_id :
  steps R (visibility_filter E user_id).
Proof.
  unfold visibility_filter.
  apply steps_bind; [apply steps_get_object |]. intros os_group.
  apply steps_bind.
  { destruct os_group; [apply steps_lift | apply steps_raise]. }
  intros os_list. apply steps_bind_lift. intros os_parts _.
  apply steps_bind_lift. intros user_id_split _.
  apply steps_bind.
  { apply (steps_get_molecule_via _ _ _ _ _ _ _ _ _
             (fun schema => match schema with JObj _ => False | _ => True end)).
    - intros schema md kw Hs. apply steps_search_unmarked. by destruct schema.
    - done.
    - discriminate. }
  intros [| [| id ids] | [| org org_objs]];
    try apply steps_ret; try apply steps_raise.
  apply steps_bind_lift. intros lists _.
  apply steps_bind; [by apply steps_search_unmarked |]. intros res.
  apply steps_bind; [| intros; apply steps_ret].
  destruct res; [apply steps_ret |].
  apply steps_bind_lift. intros ids _.
  apply steps_bind_lift. intros parts _. apply steps_ret.
Qed.

End Steps.

(** ** The traversal: frontier and rounds *)

Lemma foldl_preorder {A B} (R : relation A) `{!PreOrder R} (g : A -> B -> A) :
  (forall a b, R a (g a b)) -> forall l a, R a (foldl g a l).
Proof.
  intros Hg l. induction l as [| b l IH]; intros a; simpl; [reflexivity |].
  etrans; [apply Hg | apply IH].
Qed.

#[local] Instance frontier_le_preorder : PreOrder frontier_le.
Proof.
  split.
  - intros f x Hx. exact Hx.
  - intros f1 f2 f3 H1 H2 x Hx. apply H2, H1, Hx.
Qed.

Lemma frontier_append_le f v : frontier_le f (frontier_append f v).
Proof. unfold frontier_le. destruct v; simpl; set_solver. Qed.

Lemma collect_value_le f v : frontier_le f (collect_value f v).
Proof.
  destruct v as [s | subs | d]; unfold collect_value;
    [apply frontier_append_le | | apply frontier_append_le].
  apply (foldl_preorder frontier_le). intros a b.
  destruct (truthy b); [apply frontier_append_le | reflexivity].
Qed.

Lemma collect_hits_le f hits : frontier_le f (collect_hits f hits).
Proof.
  apply (foldl_preorder frontier_le). intros a hit.
  apply (foldl_preorder frontier_le). apply collect_value_le.
Qed.

Lemma for_schemas_le srch user_id pivot _md q schemas count ids check_lst w out w' :
  for_schemas srch user_id pivot _md q schemas count ids check_lst w = (Ok out, w') ->
  frontier_le ids out.1.
Proof.
  revert count ids check_lst w.
  induction schemas as [| schema rest IH]; intros count ids check_lst w; simpl.
  { intros [= <- <-]. reflexivity. }
  destruct (_ && _)%bool; [apply IH |].
  unfold bind. destruct (srch _ _ _ _ w) as [[res | e] w1]; [| done].
  intros Hrest. apply IH in Hrest. etrans; [| exact Hrest].
  destruct res; [reflexivity | apply collect_hits_le].
Qed.

(** A round never loses an identifier, and hands over a list without
    repetition. *)
Lemma molecule_round_frontier E srch user_id schema_name pivot _md
    ids check_lst w ids' check_lst' w' :
  molecule_round E srch user_id schema_name pivot _md ids check_lst w
    = (Ok (ids', check_lst'), w') ->
  NoDup ids' /\ ids ⊆ ids'.
Proof.
  unfold molecule_round, bind, lift.
  destruct (round_query ids) as [q | e]; [| done].
  destruct (if pivot then _ else _) as [[schemas | e] w1]; [| done].
  destruct (for_schemas _ _ _ _ _ _ _ _ _ w1) as [[out | e] w2] eqn:Hfor; [| done].
  destruct (out.1.2); [done |]. intros [= <- <- <-].
  apply for_schemas_le in Hfor. unfold frontier_le in Hfor. simpl in Hfor.
  split; [apply NoDup_remove_dups |].
  intros x Hx. apply elem_of_remove_dups. by apply Hfor.
Qed.

(** A loop that has failed at most three times needs no more fuel than the
    rounds it has left. *)
Lemma molecule_loop_fuel E srch user_id schema_name objs query pivot _md
    fuel failed ids check_lst w :
  4 - failed <= fuel -> failed <= 3 ->
  molecule_loop E srch user_id schema_name objs query pivot _md
    fuel failed ids check_lst w =
  molecule_loop E srch user_id schema_name objs query pivot _md
    (4 - failed) failed ids check_lst w.
Proof.
  revert failed ids check_lst w.
  induction fuel as [| fuel IH]; intros failed ids check_lst w Hfuel Hfailed.
  { lia. }
  replace (4 - failed) with (S (3 - failed)) by lia. simpl.
  unfold bind. destruct (molecule_round _ _ _ _ _ _ _ _ w) as [[out | e] w1]; [| done].
  destruct (decide _); [done |].
  destruct (decide _); [done |].
  rewrite IH by lia. f_equal. lia.
Qed.

Lemma molecule_loop_gives_up E srch user_id schema_name objs query pivot _md
    n fuel failed ids check_lst w w' :
  growing_rounds E srch user_id schema_name pivot _md n ids check_lst w w' ->
  0 < n -> failed + n = 4 -> n <= fuel ->
  molecule_loop E srch user_id schema_name objs query pivot _md
    fuel failed ids check_lst w = (Ok MolFalse, w').
Proof.
  intros Hrounds. revert fuel failed.
  induction Hrounds as [| n ids check_lst w ids1 check_lst1 w1 w2 Hround Hlen Hrest IH];
    intros fuel failed Hn Hsum Hfuel; [lia |].
  destruct fuel as [| fuel]; [lia |]. simpl. unfold bind. rewrite Hround. simpl.
  destruct (decide _); [lia |].
  destruct (decide _) as [Hgt | Hle].
  - assert (n = 0) as -> by lia. by inversion Hrest.
  - apply IH; lia.
Qed.

(** C4: a traversal whose frontier grows in four rounds (more than three)
    returns [False] at the end of the fourth, in the world that round left:
    no further search is made, and neither identifiers nor objects come
    back. *)
Theorem get_molecule_gives_up_after_four_growing_rounds (E : environment)
    (user_id : string) (stix_ids : list string) (schema_name : string)
    (objs : option bool) (query : option json) (pivot _md : option bool)
    (w w' : world) :
  growing_rounds E (search E) user_id schema_name
    (default true pivot) (default true _md) 4 stix_ids [] w w' ->
  get_molecule E user_id stix_ids (JStr schema_name) objs query pivot _md w
    = (Ok MolFalse, w').
Proof.
  intros Hrounds. unfold get_molecule, get_molecule_via.
  replace (match _md with Some b => b | None => true end) with (default true _md)
    by (by destruct _md).
  replace (match pivot with Some b => b | None => true end) with (default true pivot)
    by (by destruct pivot).
  eapply molecule_loop_gives_up; [exact Hrounds | lia | lia | lia].
Qed.

(** C5, amended: a round that starts from a frontier without repetition
    (seeds that are distinct, or what the previous round handed over) and
    adds no identifier to it ends the traversal: without [objs] the identifiers are returned as they
    are; with [objs] one more call of [search] is made, for the final
    identifiers and, when the caller gave a query, that query as well, and
    the objects it finds are returned. *)
Theorem get_molecule_stops_at_fixpoint (E : environment)
    (user_id schema_name : string) (objs : option bool) (query : option json)
    (pivot _md : bool) (fuel failed : nat) (ids ids' : list string)
    (check_lst check_lst' : list bool) (w w1 : world) :
  NoDup ids ->
  molecule_round E (search E) user_id schema_name pivot _md ids check_lst w
    = (Ok (ids', check_lst'), w1) ->
  ids' ⊆ ids ->
  molecule_loop E (search E) user_id schema_name objs query pivot _md
    (S fuel) failed ids check_lst w =
    (if default false objs
     then (q <- lift (objects_query query ids') ;;
           res <- search E user_id (Some (JStr schema_name)) (Some _md)
                    (Kwargs None None (Some q) (Some ["hits.hits._source"]) None) ;;
           ret (MolObjs (response_hits res))) w1
     else (Ok (MolIds ids'), w1)) /\
  (forall parts, mapM_result split_second ids' = Ok parts ->
     objects_query None ids' =
       Ok (jobj1 "query" (jobj1 "bool"
             (jobj1 "must" (jshould (jmatch "id" <$> parts))))) /\
     forall d extra, d <> [] -> jget "query" d = Some extra ->
       objects_query (Some (JObj d)) ids' =
         Ok (jobj1 "query" (jobj1 "bool"
               (jobj1 "must" (JList [extra; jshould (jmatch "id" <$> parts)]))))).
Proof.
  intros Hnodup Hround Hsub. split.
  - simpl. unfold bind at 1. rewrite Hround. simpl.
    destruct (molecule_round_frontier _ _ _ _ _ _ _ _ _ _ _ _ Hround) as [Hnd' Hsup].
    assert (Hlen : length ids' = length ids).
    { apply Permutation_length, NoDup_Permutation; [done | done |].
      intros x. split; [apply Hsub | apply Hsup]. }
    destruct (decide _); [| done].
    unfold molecule_finish. by destruct objs as [[] |].
  - intros parts Hparts. unfold objects_query. rewrite Hparts. simpl.
    split; [done |]. intros d extra Hd Hq.
    destruct d as [| kv d]; [done |]. simpl.
    unfold jget_or_raise. by rewrite Hq.
Qed.

(** C5, as stated, fails for a seed list that repeats an identifier: the
    first round finds nothing, so the set of identifiers does not grow, yet
    the list got shorter, and a second round is searched before the
    identifiers are returned. *)
Lemma get_molecule_repeated_seed_searches_again :
  (molecule_round E_plain (search E_plain) "identity--U1" "org" true false
     ["a--0"; "a--0"] [] w_empty).1 = Ok (["a--0"], []) /\
  ["a--0"] ⊆ ["a--0"; "a--0"] /\
  (get_molecule E_plain "identity--U1" ["a--0"; "a--0"] (JStr "org")
     None None None (Some false) w_empty).1 = Ok (MolIds ["a--0"]) /\
  length (es_requests
            (trace (get_molecule E_plain "identity--U1" ["a--0"; "a--0"] (JStr "org")
                      None None None (Some false) w_empty).2)) = 2.
Proof.
  split; [vm_compute; reflexivity |]. split.
  { intros x Hx. apply list_elem_of_singleton in Hx as ->. apply elem_of_cons. by left. }
  split; vm_compute; reflexivity.
Qed.

(** ** What a call records *)

Lemma extends_same_trace P w w' : trace w' = trace w -> extends P w w'.
Proof. intros H. exists []. by rewrite app_nil_r. Qed.

Lemma extends_admits (P : event -> Prop) e : P e -> admits (extends P) e.
Proof. intros He w. exists [e]. split; [done | by constructor]. Qed.

Lemma get_id_markings_extends (P : event -> Prop) E user_id index_alias :
  (forall e, plain_event e -> P e) ->
  steps (extends P) (get_id_markings E user_id index_alias).
Proof.
  intros HP. unfold get_id_markings.
  apply steps_bind; [apply _ | by intros w; apply extends_same_trace |].
  intros found. destruct found; [apply steps_ret; apply _ |].
  apply steps_bind; [apply _ | by intros w; apply extends_same_trace |]. intros _.
  apply steps_bind; [apply _ | |].
  { apply steps_visibility_filter; [apply _ | apply _ |].
    intros e He. by apply extends_admits, HP. }
  intros [body |]; [| apply steps_ret; apply _].
  apply steps_bind; [apply _ | by intros w; apply extends_same_trace |].
  intros alias_mapping.
  apply steps_bind; [apply _ | | intros _; apply steps_ret; apply _].
  intros w. apply extends_same_trace. unfold put_alias.
  destruct alias_mapping; [done |]. by destruct (String.eqb _ _).
Qed.

Lemma search_extends (P : event -> Prop) E user_id schema _md kw :
  (forall e, plain_event e -> P e) ->
  P (CallSearch user_id schema _md kw) ->
  steps (extends P) (search E user_id schema _md kw).
Proof.
  intros HP Hcall. apply steps_search_via; [apply _ | apply _ | | |].
  - intros index. by apply get_id_markings_extends.
  - by apply extends_admits.
  - intros rq. by apply extends_admits, HP.
Qed.

(** The store is touched by [get_id_markings] only through the alias calls:
    building the filter leaves heap, documents and aliases alone. *)
Lemma visibility_filter_same_store E user_id w :
  same_store w (visibility_filter E user_id w).2.
Proof.
  apply steps_visibility_filter; [apply _ | apply _ |].
  intros e _ w'. by destruct w'.
Qed.

(** ** The check list of a traversal without pivot *)

Lemma check_set_other check_lst count b j :
  j <> count -> j < length check_lst ->
  check_set check_lst count b !! j = check_lst !! j.
Proof.
  intros Hne Hlt. unfold check_set. destruct (decide _).
  - by rewrite list_lookup_insert_ne.
  - by rewrite lookup_app_l.
Qed.

Lemma check_set_here check_lst count b :
  count <= length check_lst ->
  check_set check_lst count b !! count = Some b /\
  count + 1 <= length (check_set check_lst count b).
Proof.
  intros Hle. unfold check_set. destruct (decide _).
  - rewrite list_lookup_insert_eq by done. rewrite length_insert. split; [done | lia].
  - assert (count = length check_lst) as -> by lia.
    rewrite length_app. simpl. split; [| lia].
    rewrite lookup_app_r by lia. by rewrite Nat.sub_diag.
Qed.

(** Entries below the counter are not written any more. *)
Lemma for_schemas_keeps srch user_id _md q schemas count ids check_lst w out w' j :
  j < count -> count <= length check_lst ->
  for_schemas srch user_id false _md q schemas count ids check_lst w = (Ok out, w') ->
  out.2 !! j = check_lst !! j.
Proof.
  revert count ids check_lst w.
  induction schemas as [| schema rest IH]; intros count ids check_lst w Hj Hlen; simpl.
  { by intros [= <- <-]. }
  case_bool_decide; [by apply IH |].
  unfold bind. destruct (srch _ _ _ _ w) as [[res | e] w1]; [| done].
  intros Hrest. apply IH in Hrest.
  - rewrite Hrest. apply check_set_other; lia.
  - lia.
  - by apply check_set_here.
Qed.

(** A clause reached with no marked entry at or before its position: the
    round first searches the clauses before it, then this clause, in the
    world they left, and goes on with the clauses after it; the entry of the
    clause tells whether the response to that search was non-empty. *)
Lemma for_schemas_records srch user_id _md q pre c post count ids check_lst w out w' :
  count <= length check_lst ->
  (forall j, count <= j <= count + length pre -> check_lst !! j <> Some true) ->
  for_schemas srch user_id false _md q (pre ++ c :: post) count ids check_lst w
    = (Ok out, w') ->
  exists before w1 res w2,
    for_schemas srch user_id false _md q pre count ids check_lst w
      = (Ok before, w1) /\
    srch user_id (Some c) (Some _md) (round_kwargs q) w1 = (Ok res, w2) /\
    for_schemas srch user_id false _md q post (count + length pre + 1)
      (match res with
       | RespHits hits => collect_hits before.1 hits
       | RespEmpty => before.1
       end)
      (check_set before.2 (count + length pre) (resp_bool res)) w2
      = (Ok out, w') /\
    count + length pre <= length before.2 /\
    out.2 !! (count + length pre) = Some (resp_bool res).
Proof.
  revert count ids check_lst w.
  induction pre as [| p pre IH]; intros count ids check_lst w Hlen Hfree; simpl.
  - rewrite bool_decide_eq_false_2 by (apply Hfree; lia). simpl.
    unfold bind. destruct (srch _ _ _ _ w) as [[res | e] w1] eqn:Hs; [| done].
    intros Hrest. exists (ids, check_lst), w, res, w1. simpl.
    rewrite Nat.add_0_r. split; [done |]. split; [done |]. split; [done |].
    split; [done |].
    destruct (check_set_here check_lst count (resp_bool res) Hlen) as [Hhere Hlen'].
    rewrite <- Hhere.
    eapply for_schemas_keeps; [| exact Hlen' | exact Hrest]. lia.
  - rewrite bool_decide_eq_false_2 by (apply Hfree; simpl; lia). simpl.
    unfold bind. destruct (srch _ _ _ _ w) as [[res | e] w1] eqn:Hs; [| done].
    intros Hrest.
    destruct (check_set_here check_lst count (resp_bool res) Hlen) as [Hhere Hlen'].
    apply IH in Hrest as (before & w1' & res' & w2' & Hpre & Hsrch & Hpost & Hb & Hout);
      [| done |].
    + exists before, w1', res', w2'.
      replace (count + S (length pre)) with (count + 1 + length pre) by lia.
      done.
    + intros j Hj. destruct (decide (j < length check_lst)).
      * rewrite check_set_other by lia. apply Hfree. simpl. lia.
      * unfold check_set. destruct (decide _).
        -- rewrite lookup_ge_None_2; [done |]. rewrite length_insert. lia.
        -- rewrite lookup_ge_None_2; [done |]. rewrite length_app. simpl. lia.
Qed.

Section Marked.

Variables (E : environment) (user_id schema_name : string).
Variables (objs : option bool) (query : option json) (_md : bool).
Variables (pre post : list json) (d : pydict).

Hypothesis schema_found : get_schema E schema_name = Some (pre ++ JObj d :: post).
Hypothesis not_before : JObj d ∉ pre.

Let unsearched (e : event) : Prop := ~ searches_clause (JObj d) e.

Lemma plain_unsearched e : plain_event e -> unsearched e.
Proof.
  unfold unsearched. intros Hp Hs.
  destruct e as [u [[s | l | d'] |] md kw | rq]; simpl in *; try done; discriminate.
Qed.

Lemma for_schemas_marked q schemas count ids check_lst w :
  check_lst !! length pre = Some true ->
  count <= length pre ->
  (forall i x, schemas !! i = Some x -> count + i < length pre -> x <> JObj d) ->
  extends unsearched w
    (for_schemas (search E) user_id false _md q schemas count ids check_lst w).2 /\
  (forall out,
     (for_schemas (search E) user_id false _md q schemas count ids check_lst w).1
       = Ok out ->
     out.2 !! length pre = Some true).
Proof.
  revert count ids check_lst w.
  induction schemas as [| schema rest IH];
    intros count ids check_lst w Hmark Hcount Hother; simpl.
  { split; [reflexivity | by intros out [= <-]]. }
  case_bool_decide as Hskip.
  - assert (Hall : forall l ids' w',
              for_schemas (search E) user_id false _md q l count ids' check_lst w'
              = (Ok (ids', check_lst), w')).
    { induction l as [| x l IHl]; intros ids' w'; simpl; [done |].
      rewrite bool_decide_eq_true_2 by done. apply IHl. }
    rewrite Hall. simpl. split; [reflexivity | by intros out [= <-]].
  - assert (Hlt : count < length pre).
    { destruct (decide (count = length pre)) as [-> |]; [done | lia]. }
    assert (Hhead : schema <> JObj d).
    { apply (Hother 0); [done | lia]. }
    unfold bind.
    pose proof (search_extends unsearched E user_id (Some schema) (Some _md)
                  (round_kwargs q) plain_unsearched) as Hs.
    specialize (Hs ltac:(by unfold unsearched; simpl) w).
    destruct (search E user_id (Some schema) (Some _md) (round_kwargs q) w)
      as [[res | e] w1]; simpl in Hs; [| done].
    edestruct (IH (count + 1) (match res with
                               | RespEmpty => ids
                               | RespHits hits => collect_hits ids hits
                               end)
                 (check_set check_lst count (resp_bool res)) w1) as [Hext Hout].
    + rewrite check_set_other; [done | lia |]. by eapply lookup_lt_Some.
    + lia.
    + intros i x Hi Hlt'. apply (Hother (S i)); [done | lia].
    + split; [by etrans | done].
Qed.

Lemma molecule_round_marked ids check_lst w :
  check_lst !! length pre = Some true ->
  extends unsearched w
    (molecule_round E (search E) user_id schema_name false _md ids check_lst w).2 /\
  (forall out,
     (molecule_round E (search E) user_id schema_name false _md ids check_lst w).1
       = Ok out ->
     out.2 !! length pre = Some true).
Proof.
  intros Hmark. unfold molecule_round, bind, lift. simpl. rewrite schema_found.
  destruct (round_query ids) as [q | e]; [| by split].
  edestruct (for_schemas_marked q (pre ++ JObj d :: post) 0 (ids, false) check_lst w)
    as [Hext Hout]; [done | lia | |].
  { intros i x Hi Hlt Hx. subst x. apply not_before.
    rewrite lookup_app_l in Hi by done. by eapply list_elem_of_lookup_2. }
  destruct (for_schemas _ _ _ _ _ _ _ _ _ w) as [[out | e] w1]; simpl in *; [| done].
  destruct (out.1.2); simpl; [done |]. split; [done |].
  intros out' [= <-]. simpl. by apply Hout.
Qed.

Lemma molecule_loop_marked fuel failed ids check_lst w :
  check_lst !! length pre = Some true ->
  extends unsearched w
    (molecule_loop E (search E) user_id schema_name objs query false _md
       fuel failed ids check_lst w).2.
Proof.
  revert failed ids check_lst w.
  induction fuel as [| fuel IH]; intros failed ids check_lst w Hmark; simpl.
  { reflexivity. }
  unfold bind. destruct (molecule_round_marked ids check_lst w Hmark) as [Hext Hout].
  destruct (molecule_round _ _ _ _ _ _ _ _ w) as [[out | e] w1]; simpl in *; [| done].
  etrans; [exact Hext |].
  destruct (decide _).
  - eapply (steps_molecule_finish (extends unsearched) _ _ (search E) user_id
              schema_name objs query _md (fun schema => schema = JStr schema_name));
      [| done].
    intros schema kw ->. apply search_extends; [apply plain_unsearched | done].
  - destruct (decide _); [reflexivity |]. apply IH. by apply Hout.
Qed.

End Marked.

(** C3, as stated, fails: the clause that found nothing in round one is
    searched again in round two, and the clause that found a hit is not. *)
Lemma pivot_off_requeries_the_empty_clause :
  pivot_off_run.1 = Ok (MolIds ["a--0"; "a--1"]) /\
  searched_schemas (trace pivot_off_run.2) =
    [Some clause_identity; Some clause_part_of; Some clause_identity].
Proof. split; vm_compute; reflexivity. Qed.

(** C3, amended: in a traversal without pivot, (a) a clause that is reached
    in a round with no entry of the check list set at or before its position
    is searched in that round: after the searches of the clauses before it,
    with the query of the round, in the world those searches left; the round
    goes on from the world that search left, and the entry of the clause in
    the check list the round hands over is the truth value of the response
    to that very search; (b) once the entry of a clause is set, no later
    search of the traversal has that clause for schema. *)
Theorem pivot_off_skips_clauses_that_hit (E : environment)
    (user_id schema_name : string) (objs : option bool) (query : option json)
    (_md : bool) (pre post : list json) (d : pydict) :
  get_schema E schema_name = Some (pre ++ JObj d :: post) ->
  JObj d ∉ pre ->
  (forall ids check_lst w ids' check_lst' w',
     (forall j, j <= length pre -> check_lst !! j <> Some true) ->
     molecule_round E (search E) user_id schema_name false _md ids check_lst w
       = (Ok (ids', check_lst'), w') ->
     exists q before w1 res w2 out,
       round_query ids = Ok q /\
       for_schemas (search E) user_id false _md q pre 0 (ids, false) check_lst w
         = (Ok before, w1) /\
       search E user_id (Some (JObj d)) (Some _md) (round_kwargs q) w1
         = (Ok res, w2) /\
       for_schemas (search E) user_id false _md q post (length pre + 1)
         (match res with
          | RespHits hits => collect_hits before.1 hits
          | RespEmpty => before.1
          end)
         (check_set before.2 (length pre) (resp_bool res)) w2
         = (Ok out, w') /\
       check_lst' = out.2 /\
       check_lst' !! length pre = Some (resp_bool res)) /\
  (forall fuel failed ids check_lst w,
     check_lst !! length pre = Some true ->
     exists evs,
       trace (molecule_loop E (search E) user_id schema_name objs query false _md
                fuel failed ids check_lst w).2 = trace w ++ evs /\
       Forall (fun e => ~ searches_clause (JObj d) e) evs).
Proof.
  intros Hschema Hpre. split.
  - intros ids check_lst w ids' check_lst' w' Hfree.
    unfold molecule_round, bind, lift. simpl. rewrite Hschema.
    destruct (round_query ids) as [q | e]; [| done].
    destruct (for_schemas _ _ _ _ _ _ _ _ _ w) as [[out | e] w1] eqn:Hfor; [| done].
    destruct (out.1.2); [done |]. intros [= <- <- <-].
    apply for_schemas_records in Hfor
      as (before & w1' & res & w2 & Hbefore & Hs & Hpost & _ & Hout).
    + by exists q, before, w1', res, w2, out.
    + lia.
    + intros j Hj. apply Hfree. lia.
  - intros fuel failed ids check_lst w Hmark.
    by apply (molecule_loop_marked E user_id schema_name objs query _md pre post d).
Qed.

Lemma pivot_off_skips_clauses_that_hit_witness :
  (exists q before w1 res w2 out,
     round_query ["a--0"] = Ok q /\
     for_schemas (search E_pivot_off) "identity--U1" false false q [clause_identity]
       0 (["a--0"], false) [] w_empty = (Ok before, w1) /\
     search E_pivot_off "identity--U1" (Some clause_part_of) (Some false)
       (round_kwargs q) w1 = (Ok res, w2) /\
     for_schemas (search E_pivot_off) "identity--U1" false false q []
       (length [clause_identity] + 1)
       (match res with
        | RespHits hits => collect_hits before.1 hits
        | RespEmpty => before.1
        end)
       (check_set before.2 (length [clause_identity]) (resp_bool res)) w2
       = (Ok out,
          (molecule_round E_pivot_off (search E_pivot_off) "identity--U1" "org"
             false false ["a--0"] [] w_empty).2) /\
     [false; true] = out.2 /\
     resp_bool res = true) /\
  (forall fuel failed ids check_lst w,
     check_lst !! length [clause_identity] = Some true ->
     exists evs,
       trace (molecule_loop E_pivot_off (search E_pivot_off) "identity--U1"
                "org" None None false false fuel failed ids check_lst w).2
         = trace w ++ evs /\
       Forall (fun e => ~ searches_clause clause_part_of e) evs).
Proof.
  destruct (pivot_off_skips_clauses_that_hit E_pivot_off "identity--U1" "org"
              None None false [clause_identity] []
              [("match", JObj [("relationship_type", JStr "part-of")])])
    as [Hround Hlater].
  - reflexivity.
  - intros Hin. apply list_elem_of_singleton in Hin. discriminate.
  - split; [| exact Hlater].
    destruct (Hround ["a--0"] [] w_empty ["a--0"; "a--1"] [false; true]
                (molecule_round E_pivot_off (search E_pivot_off) "identity--U1" "org"
                   false false ["a--0"] [] w_empty).2)
      as (q & before & w1 & res & w2 & out & Hq & Hbefore & Hs & Hpost & Hout & Hentry).
    + intros j _. by rewrite lookup_nil.
    + vm_compute; reflexivity.
    + exists q, before, w1, res, w2, out.
      split; [exact Hq |]. split; [exact Hbefore |]. split; [exact Hs |].
      split; [exact Hpost |]. split; [exact Hout |].
      simpl in Hentry. by injection Hentry as <-.
Defined.

(** ** The policy cache *)

Lemma prefix_append (s t : string) : String.prefix s (s +:+ t) = true.
Proof.
  induction s as [| c s IH]; simpl; [by destruct t |].
  destruct (ascii_dec c c); [exact IH | done].
Qed.

Lemma md_alias_name_not_empty E user_id index_alias :
  String.eqb (md_alias_name E user_id index_alias) "" = false.
Proof.
  unfold md_alias_name.
  by destruct ((md_time_index E (today E) user_id index_alias).1).
Qed.

Lemma put_alias_ok index name body w :
  index <> [] -> String.eqb name "" = false ->
  put_alias index name body w =
    (Ok tt, with_aliases (<[name := Alias index (Some body)]> (aliases w)) w).
Proof. intros Hi Hn. unfold put_alias. destruct index; [done |]. by rewrite Hn. Qed.

(** What [put_alias] does to the world, whatever it returns: nothing, or
    one alias written under the name it is given. *)
Lemma put_alias_writes index name body w :
  (put_alias index name body w).2 = w \/
  (put_alias index name body w).2 =
    with_aliases (<[name := Alias index (Some body)]> (aliases w)) w.
Proof.
  unfold put_alias. destruct index; [by left |].
  destruct (String.eqb name ""); [by left | by right].
Qed.

Lemma get_id_markings_name E user_id index_alias w name w' :
  get_id_markings E user_id index_alias w = (Ok (IdxName name), w') ->
  name = md_alias_name E user_id index_alias /\ is_Some (aliases w' !! name).
Proof.
  unfold get_id_markings, bind, exists_alias, delete_alias, cat_aliases, ret.
  fold (md_alias_name E user_id index_alias).
  case_bool_decide as Hfound.
  { by intros [= <- <-]. }
  destruct (visibility_filter E user_id _) as [[[body |] | e] w1]; try done.
  generalize (match aliases w1 !! index_alias with
              | Some a => alias_index a
              | None => []
              end) as index.
  intros index. unfold put_alias. destruct index; [done |].
  rewrite md_alias_name_not_empty.
  intros [= <- <-]. split; [done |]. simpl. rewrite lookup_insert_eq. by eexists.
Qed.

(** C7, as stated, fails: on day 1 the view of [identity--U1] is built; on
    day 2, when the org chart of the user comes back empty, the call deletes
    the view of day 1, creates none and returns [False]. *)
Lemma get_id_markings_later_day_without_view :
  exists w1 w2,
    get_id_markings (E_demo 1 policy_script) "identity--U1" "intel" w_policy
      = (Ok (IdxName "intel--U1--1"), w1) /\
    is_Some (aliases w1 !! "intel--U1--1") /\
    get_id_markings (on_day 2 (E_demo 1 policy_script)) "identity--U1" "intel" w1
      = (Ok IdxFalse, w2) /\
    aliases w2 !! "intel--U1--1" = None /\
    aliases w2 !! "intel--U1--2" = None.
Proof.
  eexists _, _. split; [vm_compute; reflexivity |].
  split; [by eexists |]. split; [vm_compute; reflexivity |]. by split.
Qed.

(** C7, amended: after a call of [get_id_markings] that returned a view
    name, (a) a second call for the same user and index on the same day
    returns the same name and leaves the world as it is: no search is made
    and no alias is written; (b) a call on a day whose view does not exist
    yet first deletes every alias whose name starts with the root of the
    user and the index, the view of the earlier day among them; then, when
    the filter gets built and the index alias has an index behind it, it
    creates the view of the new day over the indices behind the index alias,
    and returns its name. *)
Theorem get_id_markings_cache (E : environment) (user_id index_alias : string)
    (w w1 w2 : world) (name : string) (day' : nat) (body : json) (a : alias) :
  get_id_markings E user_id index_alias w = (Ok (IdxName name), w1) ->
  (md_time_index E day' user_id index_alias).1 =
    (md_time_index E (today E) user_id index_alias).1 ->
  aliases w1 !! md_alias_name (on_day day' E) user_id index_alias = None ->
  visibility_filter (on_day day' E) user_id
    (without_root (md_time_index E day' user_id index_alias).1 w1)
    = (Ok (Some body), w2) ->
  aliases w1 !! index_alias = Some a ->
  String.prefix (md_time_index E day' user_id index_alias).1 index_alias = false ->
  alias_index a <> [] ->
  get_id_markings E user_id index_alias w1 = (Ok (IdxName name), w1) /\
  exists w3,
    get_id_markings (on_day day' E) user_id index_alias w1 =
      (Ok (IdxName (md_alias_name (on_day day' E) user_id index_alias)), w3) /\
    aliases w3 !! name = None /\
    (forall stale,
       String.prefix (md_time_index E day' user_id index_alias).1 stale = true ->
       stale <> md_alias_name (on_day day' E) user_id index_alias ->
       aliases w3 !! stale = None) /\
    aliases w3 !! md_alias_name (on_day day' E) user_id index_alias =
      Some (Alias (alias_index a) (Some body)).
Proof.
  intros Hfirst Hroot Hnew Hbuild Hindex Hplain Hbacked.
  destruct (get_id_markings_name _ _ _ _ _ _ Hfirst) as [Hname [a' Ha]].
  split.
  { unfold get_id_markings, bind, exists_alias. fold (md_alias_name E user_id index_alias).
    rewrite <- Hname. rewrite bool_decide_eq_true_2 by by eexists.
    by rewrite Hname. }
  pose proof (visibility_filter_same_store (on_day day' E) user_id
                (without_root (md_time_index E day' user_id index_alias).1 w1))
    as (_ & _ & Hal).
  rewrite Hbuild in Hal. simpl in Hal.
  assert (Hstale : forall stale,
            String.prefix (md_time_index E day' user_id index_alias).1 stale = true ->
            aliases w2 !! stale = None).
  { intros stale Hp. rewrite Hal. apply map_lookup_filter_None. right.
    intros x _. simpl. by rewrite Hp. }
  assert (Hkept : aliases w2 !! index_alias = Some a).
  { rewrite Hal. by apply map_lookup_filter_Some. }
  eexists. split.
  { unfold get_id_markings, bind, exists_alias, delete_alias, cat_aliases, ret.
    fold (md_alias_name (on_day day' E) user_id index_alias).
    rewrite bool_decide_eq_false_2 by (rewrite Hnew; by intros [? ?]).
    simpl. unfold without_root in Hbuild. rewrite Hbuild, Hkept.
    rewrite put_alias_ok; [reflexivity | done | apply md_alias_name_not_empty]. }
  simpl.
  assert (Hne : name <> md_alias_name (on_day day' E) user_id index_alias).
  { intros Heq. rewrite <- Heq, Ha in Hnew. done. }
  split; [| split].
  - rewrite lookup_insert_ne by done. apply Hstale.
    rewrite Hname, Hroot. unfold md_alias_name. apply prefix_append.
  - intros stale Hp Hs. rewrite lookup_insert_ne by done. by apply Hstale.
  - by rewrite lookup_insert_eq.
Qed.

Lemma get_id_markings_cache_witness :
  exists name w1 w3,
    get_id_markings (E_policy 1) "identity--U1" "intel" w_policy
      = (Ok (IdxName name), w1) /\
    get_id_markings (E_policy 1) "identity--U1" "intel" w1
      = (Ok (IdxName name), w1) /\
    get_id_markings (on_day 2 (E_policy 1)) "identity--U1" "intel" w1
      = (Ok (IdxName "intel--U1--2"), w3) /\
    name = "intel--U1--1" /\
    aliases w3 !! name = None /\
    exists body,
      aliases w3 !! "intel--U1--2"
        = Some (Alias ["identity"; "relationship"] (Some body)).
Proof.
  pose (w1 := (get_id_markings (E_policy 1) "identity--U1" "intel" w_policy).2).
  pose (built := visibility_filter (on_day 2 (E_policy 1)) "identity--U1"
                   (without_root "intel--U1" w1)).
  assert (H1 : get_id_markings (E_policy 1) "identity--U1" "intel" w_policy
               = (Ok (IdxName "intel--U1--1"), w1)) by (vm_compute; reflexivity).
  assert (H4 : exists body, built = (Ok (Some body), built.2)).
  { eexists. vm_compute. reflexivity. }
  destruct H4 as [body H4].
  destruct (get_id_markings_cache (E_policy 1) "identity--U1" "intel"
              w_policy w1 built.2 "intel--U1--1" 2 body
              (Alias ["identity"; "relationship"] None) H1)
    as (Hsame & w3 & Hlater & Hgone & _ & Hnew).
  - reflexivity.
  - vm_compute; reflexivity.
  - exact H4.
  - vm_compute; reflexivity.
  - reflexivity.
  - discriminate.
  - exists "intel--U1--1", w1, w3.
    split; [exact H1 |]. split; [exact Hsame |]. split; [exact Hlater |].
    split; [reflexivity |]. split; [exact Hgone |].
    exists body. exact Hnew.
Defined.

(** ** The criteria of the access policy *)

(** C6 (the code on the objects of an org chart): the objects the closing
    search of the org chart traversal can return have type [identity] or
    [relationship], as its query demands; for such objects the criteria that
    [get_id_markings] searches the marking definitions with hold the user's
    own identifier only: no organization is added. *)
Theorem distribution_criteria_leave_out_organizations (E : environment)
    (user_id_split : string) (org_objs : list pydict)
    (valid_refs org_should valid_refs' : list json) :
  Forall (fun org => jget "type" org = Some (JStr "identity") \/
                     jget "type" org = Some (JStr "relationship")) org_objs ->
  distribution_criteria E user_id_split org_objs valid_refs
    = Ok (org_should, valid_refs') ->
  org_should = [jmatch "definition.distribution_refs" user_id_split].
Proof.
  unfold distribution_criteria.
  generalize [jmatch "definition.distribution_refs" user_id_split] as acc.
  intros acc Hall. revert acc valid_refs.
  induction Hall as [| org rest Htype Hrest IH]; intros acc valid_refs; simpl.
  { by intros [= <- _]. }
  unfold jget_or_raise.
  destruct (jget "id" org) as [org_id |]; [| done].
  assert (Hno : exists ty, jget "type" org = Some (JStr ty) /\
                           String.eqb ty "organization" = false).
  { destruct Htype as [-> | ->]; eexists; split; done. }
  destruct Hno as (ty & -> & Hty). simpl. rewrite Hty.
  destruct (jsplit_second org_id) as [part |]; [| done].
  destruct (split_second (pii_marking_id E)) as [pii |]; [| done].
  apply IH.
Qed.

Lemma distribution_criteria_leave_out_organizations_witness :
  exists org_should valid_refs',
    distribution_criteria E_plain "U1" [user_U1; org_O1; rel_R1] [unmarked_clause]
      = Ok (org_should, valid_refs') /\
    jget "identity_class" org_O1 = Some (JStr "organization") /\
    org_should = [jmatch "definition.distribution_refs" "U1"].
Proof.
  eexists _, _. split; [vm_compute; reflexivity |]. split; [reflexivity |].
  apply (distribution_criteria_leave_out_organizations E_plain "U1"
           [user_U1; org_O1; rel_R1] [unmarked_clause]
           [jmatch "definition.distribution_refs" "U1"]
           [unmarked_clause; pii_clause "U1" "pii"; pii_clause "O1" "pii";
            pii_clause "R1" "pii"]).
  - repeat constructor; (by left) || (by right).
  - vm_compute; reflexivity.
Defined.

(** The request [get_id_markings] sends for the marking definitions of
    [identity--U1], a member of the organization [identity--O1]: the
    organization is not among the criteria. *)
Example get_id_markings_searches_for_user_only :
  es_requests (trace (get_id_markings (E_policy 1) "identity--U1" "intel"
                        w_policy).2) !! 3%nat =
    Some (EsRequest (IdxName "marking-definition") 10000
            (Some (jobj1 "query"
                     (jshould [jmatch "definition.distribution_refs" "U1"])))
            (Some ["hits.hits._source.id"]) None).
Proof. vm_compute; reflexivity. Qed.

(** ** The seeds and the schema name of a traversal *)

(** C8 (the code on an empty seed list): the traversal does not return
    [False]; it sends a search to the server, and returns the empty list of
    identifiers or, with [objs], whatever objects the closing search, which
    names no identifier, finds. *)
Example get_molecule_empty_seeds_are_searched :
  (get_molecule (E_demo 0 []) "identity--U1" [] (JStr "org")
     None None None (Some false) w_empty).1 = Ok (MolIds []) /\
  length (es_requests
            (trace (get_molecule (E_demo 0 []) "identity--U1" [] (JStr "org")
                      None None None (Some false) w_empty).2)) = 1 /\
  (get_molecule (E_demo 0 [RespEmpty; RespHits [user_U1; org_O1]])
     "identity--U1" [] (JStr "org") (Some true) None None (Some false) w_empty).1
    = Ok (MolObjs [user_U1; org_O1]).
Proof. repeat split; vm_compute; reflexivity. Qed.

(** A schema name that is not a string (here a list or a dict) makes
    [get_molecule] return [False] at once: the world is untouched. *)
Lemma get_molecule_schema_name_not_str (E : environment) (user_id : string)
    (stix_ids : list string) (names : list json) (d : pydict)
    (objs : option bool) (query : option json) (pivot _md : option bool)
    (w : world) :
  get_molecule E user_id stix_ids (JList names) objs query pivot _md w
    = (Ok MolFalse, w) /\
  get_molecule E user_id stix_ids (JObj d) objs query pivot _md w
    = (Ok MolFalse, w).
Proof. split; reflexivity. Qed.

(** ** The defaults of [search] *)

Lemma scripted_honours_size script w rq hits :
  scripted script w rq = Ok (RespHits hits) ->
  (N.of_nat (length hits) <= rq_size rq)%N.
Proof.
  unfold scripted. intros [= Hcut].
  destruct (default RespEmpty _) as [| hs]; [done |]. injection Hcut as <-.
  rewrite length_take. lia.
Qed.



Lemma get_molecule_gives_up_after_four_growing_rounds_witness :
  exists w',
    get_molecule (E_demo 0 growing_script) "identity--U1" ["a--0"] (JStr "org")
      None None None (Some false) w_empty = (Ok MolFalse, w') /\
    length (es_requests (trace w')) = 4.
Proof.
  eexists. split.
  - apply (get_molecule_gives_up_after_four_growing_rounds
             (E_demo 0 growing_script) "identity--U1" ["a--0"] "org"
             None None None (Some false) w_empty).
    eapply growing_next; [vm_compute; reflexivity | vm_compute; lia |].
    eapply growing_next; [vm_compute; reflexivity | vm_compute; lia |].
    eapply growing_next; [vm_compute; reflexivity | vm_compute; lia |].
    eapply growing_next; [vm_compute; reflexivity | vm_compute; lia |].
    apply growing_none.
  - vm_compute; reflexivity.
Defined.

Lemma get_molecule_stops_at_fixpoint_witness :
  molecule_loop (E_demo 0 fixpoint_script) (search (E_demo 0 fixpoint_script))
    "identity--U1" "org" (Some true) (Some org_query) true false
    4 0 ["identity--U1"] [] w_empty =
    (q <- lift (objects_query (Some org_query) ["identity--U1"]) ;;
     res <- search (E_demo 0 fixpoint_script) "identity--U1" (Some (JStr "org"))
              (Some false)
              (Kwargs None None (Some q) (Some ["hits.hits._source"]) None) ;;
     ret (MolObjs (response_hits res)))
      (molecule_round (E_demo 0 fixpoint_script)
         (search (E_demo 0 fixpoint_script)) "identity--U1" "org" true false
         ["identity--U1"] [] w_empty).2 /\
  (get_molecule (E_demo 0 fixpoint_script) "identity--U1" ["identity--U1"]
     (JStr "org") (Some true) (Some org_query) None (Some false) w_empty).1
    = Ok (MolObjs [user_U1]).
Proof.
  split; [| vm_compute; reflexivity].
  apply (get_molecule_stops_at_fixpoint (E_demo 0 fixpoint_script)
           "identity--U1" "org" (Some true) (Some org_query) true false 3 0
           ["identity--U1"] ["identity--U1"] [] []).
  - apply NoDup_singleton.
  - vm_compute; reflexivity.
  - done.
Defined.

Lemma molecule_loop_fuel_witness :
  molecule_loop (E_demo 0 growing_script) (search (E_demo 0 growing_script))
    "identity--U1" "org" None None true false 7 0 ["a--0"] [] w_empty =
  molecule_loop (E_demo 0 growing_script) (search (E_demo 0 growing_script))
    "identity--U1" "org" None None true false (4 - 0) 0 ["a--0"] [] w_empty.
Proof.
  apply (molecule_loop_fuel (E_demo 0 growing_script)
           (search (E_demo 0 growing_script))
           "identity--U1" "org" None None true false 7 0 ["a--0"] [] w_empty);
    simpl; lia.
Defined.

(** ** Storing and reading documents *)

Lemma doc_key_split id i0 i1 :
  doc_key id = Ok (i0, i1) ->
  split_dd id !! 0%nat = Some i0 /\ split_dd id !! 1%nat = Some i1.
Proof.
  unfold doc_key, index_or_raise.
  destruct (split_dd id !! 0%nat); [| done].
  destruct (split_dd id !! 1%nat); [| done]. by intros [= -> ->].
Qed.

Lemma store_object_named E obj id k w :
  jget "id" obj = Some (JStr id) -> doc_key id = Ok k -> k.1 <> "" ->
  store_object E obj w =
    (Ok true, with_docs (<[filed_under E w k := obj]> (docs w)) w).
Proof.
  intros Hid Hk Hindex. destruct k as [i0 i1]. apply doc_key_split in Hk as [H0 H1].
  unfold store_object, jget_or_raise. rewrite Hid.
  unfold bind, lift, index_or_raise. simpl. rewrite H0, H1. unfold es_index.
  simpl in Hindex. rewrite (proj2 (String.eqb_neq i0 "") Hindex).
  unfold filed_under. simpl. by case_bool_decide.
Qed.

Lemma store_object_ok E obj id k w :
  jget "id" obj = Some (JStr id) -> doc_key id = Ok k ->
  k.1 <> "" -> k.2 <> "" ->
  store_object E obj w = (Ok true, with_docs (<[k := obj]> (docs w)) w).
Proof.
  intros Hid Hk Hindex Hdoc. rewrite (store_object_named E obj id k) by done.
  unfold filed_under. rewrite (proj2 (String.eqb_neq k.2 "") Hdoc).
  by destruct k.
Qed.

(** What [store_object] does to the world, whatever it returns: nothing, or
    one document written where its [id] says. *)
Lemma store_object_effect E obj w :
  (store_object E obj w).2 = w \/
  exists id k, jget "id" obj = Some (JStr id) /\ doc_key id = Ok k /\ k.1 <> "" /\
    (store_object E obj w).2 = with_docs (<[filed_under E w k := obj]> (docs w)) w.
Proof.
  destruct (jget "id" obj) as [[id | ? | ?] |] eqn:Hid;
    try (left; unfold store_object, jget_or_raise, bind, lift; by rewrite Hid).
  destruct (doc_key id) as [k |] eqn:Hk.
  - destruct (decide (k.1 = "")) as [Hempty | Hindex].
    + left. destruct k as [i0 i1]. apply doc_key_split in Hk as [H0 H1].
      simpl in Hempty. subst i0.
      unfold store_object, jget_or_raise, bind, lift, index_or_raise. rewrite Hid.
      simpl. by rewrite H0, H1.
    + right. exists id, k. by rewrite (store_object_named E obj id k).
  - left. unfold store_object, jget_or_raise, bind, lift. rewrite Hid. simpl.
    unfold doc_key in Hk. unfold index_or_raise in *.
    destruct (split_dd id !! 0%nat); [| done].
    by destruct (split_dd id !! 1%nat).
Qed.

Lemma filed_by_id_insert w k obj id :
  filed_by_id w -> jget "id" obj = Some (JStr id) -> doc_key id = Ok k ->
  k.1 <> "" -> k.2 <> "" ->
  filed_by_id (with_docs (<[k := obj]> (docs w)) w).
Proof.
  intros Hw Hid Hk H1 H2 k' doc. simpl. destruct (decide (k = k')) as [<- |].
  - rewrite lookup_insert_eq. intros [= <-]. split; [done |]. split; [done |].
    by exists id.
  - rewrite lookup_insert_ne by done. apply Hw.
Qed.

Lemma filed_by_id_store_object E obj w :
  filed_by_id w -> names_its_document obj -> filed_by_id (store_object E obj w).2.
Proof.
  intros Hw Hobj.
  destruct (store_object_effect E obj w) as [-> | (id & k & Hid & Hk & Hindex & ->)];
    [done |].
  pose proof (Hobj id k Hid Hk) as Hdoc.
  unfold filed_under. rewrite (proj2 (String.eqb_neq k.2 "") Hdoc).
  destruct k as [i0 i1]. by eapply filed_by_id_insert.
Qed.

Lemma filed_by_id_store_each E objs w :
  filed_by_id w -> Forall names_its_document objs ->
  filed_by_id (store_each E objs w).2.
Proof.
  intros Hw Hobjs. revert w Hw.
  induction Hobjs as [| obj rest Hobj Hrest IH]; intros w Hw; simpl; [done |].
  unfold bind. pose proof (filed_by_id_store_object E obj w Hw Hobj) as H1.
  destruct (store_object E obj w) as [[ok | e] w1]; simpl in *; [| done].
  destruct (negb ok); [done | by apply IH].
Qed.

Lemma get_objects_one user_id id k w :
  split_first user_id = "identity" -> doc_key id = Ok k ->
  get_objects user_id [id] w =
    (Ok match docs w !! k with Some doc => Some [doc] | None => None end, w).
Proof.
  intros Huser Hk. unfold get_objects. rewrite Huser. simpl.
  unfold bind, lift, es_mget, ret. simpl. rewrite Hk. simpl.
  by destruct (docs w !! k).
Qed.

Lemma get_object_found user_id id k w :
  split_first user_id = "identity" -> doc_key id = Ok k ->
  get_object user_id id w = (Ok (docs w !! k), w).
Proof.
  intros Huser Hk. unfold get_object, bind.
  rewrite (get_objects_one _ _ k) by done. by destruct (docs w !! k).
Qed.

Lemma get_object_inv user_id id doc w w1 :
  get_object user_id id w = (Ok (Some doc), w1) ->
  w1 = w /\ exists k, doc_key id = Ok k /\ docs w !! k = Some doc.
Proof.
  unfold get_object, get_objects, bind, lift, es_mget, ret. simpl.
  destruct (negb (String.eqb (split_first user_id) "identity")); [done |].
  destruct (doc_key id) as [k | err] eqn:Hk; simpl; [| done].
  destruct (docs w !! k) as [d |] eqn:Hd; simpl; [| done].
  intros [= <- <-]. split; [done |]. by exists k.
Qed.

(** X4: an object whose [id] has the form [type--uuid], neither part empty,
    once stored, is what [get_object] and [get_objects] return for that id
    to a user whose id is an identity; reading leaves the world as it is (no
    search is made, no view is built). *)
Theorem store_then_get_object (E : environment) (user_id : string)
    (obj : pydict) (id : string) (k : string * string) (w : world) :
  split_first user_id = "identity" ->
  jget "id" obj = Some (JStr id) ->
  doc_key id = Ok k ->
  k.1 <> "" -> k.2 <> "" ->
  exists w',
    store_objects E (OneObject obj) w = (Ok true, w') /\
    get_object user_id id w' = (Ok (Some obj), w') /\
    get_objects user_id [id] w' = (Ok (Some [obj]), w').
Proof.
  intros Huser Hid Hk Hindex Hdoc. eexists. split.
  { simpl. by apply (store_object_ok E obj id k). }
  split.
  - rewrite (get_object_found _ _ k) by done. simpl. by rewrite lookup_insert_eq.
  - rewrite (get_objects_one _ _ k) by done. simpl. by rewrite lookup_insert_eq.
Qed.

Lemma store_then_get_object_witness :
  exists w',
    store_objects E_plain (OneObject org_O1) w_empty = (Ok true, w') /\
    get_object "identity--U1" "identity--O1" w' = (Ok (Some org_O1), w') /\
    get_objects "identity--U1" ["identity--O1"] w' = (Ok (Some [org_O1]), w').
Proof.
  apply (store_then_get_object E_plain "identity--U1" org_O1 "identity--O1"
           ("identity", "O1")); (reflexivity || discriminate).
Defined.

(** X5: in a store where every document is filed under the index and id its
    own [id] names, [store_objects] keeps that so, however it ends (also
    when it raises half way through a list), as long as no object it is
    given has an [id] with nothing after the [--]: such an object is filed
    under an id of the server's making. *)
Theorem store_objects_keeps_documents_filed_by_id (E : environment)
    (objects : objects_arg) (w : world) :
  filed_by_id w ->
  Forall names_its_document (objects_given objects) ->
  filed_by_id (store_objects E objects w).2.
Proof.
  intros Hw Hobjs. destruct objects as [obj | objs]; simpl in *.
  - apply filed_by_id_store_object; [done |]. by inversion Hobjs.
  - by apply filed_by_id_store_each.
Qed.

Lemma w_policy_filed_by_id : filed_by_id w_policy.
Proof.
  intros k doc Hk. unfold w_policy in Hk. simpl in Hk.
  apply lookup_singleton_Some in Hk as [<- <-].
  split; [done |]. split; [done |]. by exists "grouping--os".
Qed.

Lemma store_objects_keeps_documents_filed_by_id_witness :
  filed_by_id (store_objects E_plain
                 (ObjectList [user_U1; [("name", JStr "no id")]; org_O1])
                 w_policy).2.
Proof.
  apply (store_objects_keeps_documents_filed_by_id E_plain
           (ObjectList [user_U1; [("name", JStr "no id")]; org_O1]) w_policy).
  - exact w_policy_filed_by_id.
  - repeat constructor; intros id k [= <-] [= <-]; discriminate.
Defined.

(** X6: [store_objects] on a list is not atomic: when the objects before
    the first one without an [id] are well formed, the call raises KeyError
    at that one, the objects before it stay stored exactly as a call with
    them alone stores them, and the objects after it are not written. *)
Theorem store_objects_list_stops_at_first_bad (E : environment)
    (good rest : list pydict) (bad : pydict) (w : world) :
  Forall (fun obj => exists id k,
            jget "id" obj = Some (JStr id) /\ doc_key id = Ok k /\ k.1 <> "")
    good ->
  jget "id" bad = None ->
  exists w1,
    store_objects E (ObjectList good) w = (Ok true, w1) /\
    store_objects E (ObjectList (good ++ bad :: rest)) w = (Raise KeyError, w1).
Proof.
  intros Hgood Hbad. simpl. revert w.
  induction Hgood as [| obj good (id & k & Hid & Hk & Hindex) Hrest IH];
    intros w; simpl.
  - exists w. split; [done |]. unfold bind, store_object, lift, jget_or_raise.
    by rewrite Hbad.
  - unfold bind. rewrite (store_object_named E obj id k) by done. simpl. apply IH.
Qed.

Lemma store_objects_list_stops_at_first_bad_witness :
  exists w1,
    store_objects E_plain (ObjectList [user_U1]) w_empty = (Ok true, w1) /\
    store_objects E_plain
      (ObjectList ([user_U1] ++ [("name", JStr "no id")] :: [org_O1]))
      w_empty = (Raise KeyError, w1).
Proof.
  apply (store_objects_list_stops_at_first_bad E_plain [user_U1] [org_O1]
           [("name", JStr "no id")] w_empty).
  - constructor; [| constructor]. by exists "identity--U1", ("identity", "U1").
  - reflexivity.
Defined.

Lemma all_sources_found (m : gmap (string * string) pydict) keys found :
  Forall2 (fun k doc => m !! k = Some doc) keys found ->
  all_sources ((fun k => m !! k) <$> keys) = Some found.
Proof.
  induction 1 as [| k doc keys' found' Hk Hrest IH]; [done |].
  rewrite fmap_cons. simpl. by rewrite Hk, IH.
Qed.

Lemma all_sources_missing (m : gmap (string * string) pydict) keys k :
  k ∈ keys -> m !! k = None ->
  all_sources ((fun k => m !! k) <$> keys) = None.
Proof.
  intros Hin Hnone. induction keys as [| k' keys' IH]; [by apply elem_of_nil in Hin |].
  rewrite fmap_cons. apply elem_of_cons in Hin as [<- | Hin]; simpl.
  - by rewrite Hnone.
  - destruct (m !! k'); [| done]. by rewrite (IH Hin).
Qed.

(** X7: [get_objects] is all or nothing: for a user whose id is an identity
    and identifiers of the form [type--uuid], it returns the documents, in
    the order asked, when every one of them is stored, and [False] as soon
    as one is missing, even if the others are there. An empty list of
    identifiers gives [False] too. The world is never changed. *)
Theorem get_objects_all_or_nothing (user_id : string) (obj_ids : list string)
    (keys : list (string * string)) (w : world) :
  split_first user_id = "identity" ->
  mapM_result doc_key obj_ids = Ok keys ->
  get_objects user_id [] w = (Ok None, w) /\
  (obj_ids <> [] ->
   forall found, Forall2 (fun k doc => docs w !! k = Some doc) keys found ->
     get_objects user_id obj_ids w = (Ok (Some found), w)) /\
  (forall k, k ∈ keys -> docs w !! k = None ->
     get_objects user_id obj_ids w = (Ok None, w)).
Proof.
  intros Huser Hkeys. split; [done |].
  assert (Hrun : obj_ids <> [] ->
            get_objects user_id obj_ids w =
              (Ok (all_sources ((fun k => docs w !! k) <$> keys)), w)).
  { intros Hne. unfold get_objects. destruct obj_ids; [done |].
    rewrite Huser. simpl negb. cbv iota. unfold bind, lift, es_mget, ret.
    by rewrite Hkeys. }
  split.
  - intros Hne found Hall. rewrite Hrun by done.
    by rewrite (all_sources_found _ _ _ Hall).
  - intros k Hin Hnone.
    assert (Hne : obj_ids <> []).
    { intros ->. simpl in Hkeys. injection Hkeys as <-. by apply elem_of_nil in Hin. }
    rewrite Hrun by done. by rewrite (all_sources_missing _ _ _ Hin Hnone).
Qed.

Lemma get_objects_all_or_nothing_witness :
  get_objects "identity--U1" [] w_policy = (Ok None, w_policy) /\
  (["grouping--os"; "identity--O1"] <> [] ->
   forall found,
     Forall2 (fun k doc => docs w_policy !! k = Some doc)
       [("grouping", "os"); ("identity", "O1")] found ->
     get_objects "identity--U1" ["grouping--os"; "identity--O1"] w_policy
       = (Ok (Some found), w_policy)) /\
  (forall k, k ∈ [("grouping", "os"); ("identity", "O1")] ->
     docs w_policy !! k = None ->
     get_objects "identity--U1" ["grouping--os"; "identity--O1"] w_policy
       = (Ok None, w_policy)).
Proof.
  apply (get_objects_all_or_nothing "identity--U1" ["grouping--os"; "identity--O1"]
           [("grouping", "os"); ("identity", "O1")] w_policy); reflexivity.
Defined.

(** ** The open-group object *)

Lemma jget_jset_eq k v d : jget k (jset k v d) = Some v.
Proof.
  induction d as [| [k' v'] d IH]; simpl.
  - by rewrite String.eqb_refl.
  - destruct (String.eqb k k') eqn:Hk; simpl; rewrite Hk; [done | exact IH].
Qed.

Lemma jget_jset_ne k k' v d : k <> k' -> jget k' (jset k v d) = jget k' d.
Proof.
  intros Hne. induction d as [| [k0 v0] d IH]; simpl.
  - by rewrite (proj2 (String.eqb_neq k' k)).
  - destruct (String.eqb k k0) eqn:Hk; simpl.
    + apply String.eqb_eq in Hk as <-.
      by rewrite (proj2 (String.eqb_neq k' k)).
    + destruct (String.eqb k' k0); [done | exact IH].
Qed.

Lemma str_in_list_elem s l : str_in s (JList l) = true <-> JStr s ∈ l.
Proof.
  simpl. rewrite existsb_exists. split.
  - intros (x & Hin & Hx). apply list_elem_of_In in Hin.
    destruct x as [t | |]; simpl in Hx; try done.
    by apply String.eqb_eq in Hx as ->.
  - intros Hin. exists (JStr s). split; [by apply list_elem_of_In |].
    simpl. apply String.eqb_refl.
Qed.

(** X8: [set_new_osdm] on a stored open-group object, whose identifier has
    the form [type--uuid] with neither part empty and whose [object_refs] is
    a list, returns [True] and leaves the marking id in that list exactly
    once more than needed: if the id is already listed the world does not
    change, otherwise the id is appended after the ids already there and the
    object is stored again; either way a second call changes nothing. *)
Theorem set_new_osdm_registers_once (E : environment) (user_id stix_id : string)
    (k : string * string) (os_group : pydict) (refs : list json) (w : world) :
  split_first user_id = "identity" ->
  doc_key (os_group_id E) = Ok k ->
  k.1 <> "" -> k.2 <> "" ->
  docs w !! k = Some os_group ->
  jget "id" os_group = Some (JStr (os_group_id E)) ->
  jget "object_refs" os_group = Some (JList refs) ->
  exists w' os_group',
    set_new_osdm E user_id stix_id w = (Ok true, w') /\
    docs w' !! k = Some os_group' /\
    jget "object_refs" os_group' =
      Some (JList (if str_in stix_id (JList refs) then refs
                   else refs ++ [JStr stix_id])) /\
    (JStr stix_id ∈ refs -> w' = w) /\
    set_new_osdm E user_id stix_id w' = (Ok true, w').
Proof.
  intros Huser Hk Hindex Hpart Hdoc Hid Hrefs.
  assert (Hrun : forall w0 group0 refs0,
            docs w0 !! k = Some group0 ->
            jget "object_refs" group0 = Some (JList refs0) ->
            JStr stix_id ∈ refs0 ->
            set_new_osdm E user_id stix_id w0 = (Ok true, w0)).
  { intros w0 group0 refs0 Hd Hr Hin. unfold set_new_osdm, bind.
    rewrite (get_object_found _ _ k) by done. rewrite Hd.
    unfold lift, jget_or_raise. rewrite Hr.
    by rewrite (proj2 (str_in_list_elem stix_id refs0) Hin). }
  destruct (str_in stix_id (JList refs)) eqn:Hs.
  - apply str_in_list_elem in Hs.
    exists w, os_group. repeat split; try done; by eapply Hrun.
  - assert (Hnot : JStr stix_id ∉ refs).
    { intros Hin. apply str_in_list_elem in Hin. congruence. }
    eexists _, _. split.
    { unfold set_new_osdm, bind. rewrite (get_object_found _ _ k) by done.
      rewrite Hdoc. unfold lift, jget_or_raise. rewrite Hrefs, Hs.
      apply (store_object_ok E _ (os_group_id E) k); [| done | done | done].
      by rewrite jget_jset_ne. }
    simpl. rewrite lookup_insert_eq. split; [done |].
    split; [apply jget_jset_eq |]. split; [done |].
    eapply Hrun.
    + simpl. apply lookup_insert_eq.
    + apply jget_jset_eq.
    + apply elem_of_app. right. by apply list_elem_of_singleton.
Qed.

Lemma set_new_osdm_registers_once_witness :
  exists w' os_group',
    set_new_osdm (E_policy 1) "identity--U1" "marking-definition--M1" w_policy
      = (Ok true, w') /\
    docs w' !! ("grouping", "os") = Some os_group' /\
    jget "object_refs" os_group' =
      Some (JList (if str_in "marking-definition--M1"
                           (JList [JStr "marking-definition--white"])
                   then [JStr "marking-definition--white"]
                   else [JStr "marking-definition--white"] ++
                        [JStr "marking-definition--M1"])) /\
    (JStr "marking-definition--M1" ∈ [JStr "marking-definition--white"] ->
     w' = w_policy) /\
    set_new_osdm (E_policy 1) "identity--U1" "marking-definition--M1" w'
      = (Ok true, w').
Proof.
  apply (set_new_osdm_registers_once (E_policy 1) "identity--U1"
           "marking-definition--M1" ("grouping", "os")
           [("id", JStr "grouping--os"); ("type", JStr "grouping");
            ("object_refs", JList [JStr "marking-definition--white"])]);
    (reflexivity || discriminate).
Defined.

(** X9: [set_new_osdm] keeps every document filed under the index and id its
    own [id] names, and touches neither the heap nor the aliases nor the
    trace (it reads the group by id: the markings of the user are not
    consulted). *)
Theorem set_new_osdm_frame (E : environment) (user_id stix_id : string)
    (w : world) :
  filed_by_id w ->
  filed_by_id (set_new_osdm E user_id stix_id w).2 /\
  heap (set_new_osdm E user_id stix_id w).2 = heap w /\
  aliases (set_new_osdm E user_id stix_id w).2 = aliases w /\
  trace (set_new_osdm E user_id stix_id w).2 = trace w.
Proof.
  intros Hw. unfold set_new_osdm, bind.
  assert (Hget : (get_object user_id (os_group_id E) w).2 = w).
  { unfold get_object, get_objects, bind, lift, es_mget, ret. simpl.
    destruct (negb _); [done |]. destruct (doc_key _); [| done]. simpl.
    by destruct (docs w !! a). }
  destruct (get_object user_id (os_group_id E) w) as [[[group |] | e] w0] eqn:Hgroup;
    simpl in Hget; subst w0; simpl; try done.
  apply get_object_inv in Hgroup as (_ & k & Hk & Hdoc).
  destruct (Hw k group Hdoc) as (Hindex & Hpart & id & Hid & Hkey).
  unfold lift. destruct (jget_or_raise "object_refs" group) as [refs | e]; [| done].
  destruct (str_in stix_id refs); [done |].
  destruct refs as [s | l | d]; try done.
  set (obj := jset _ _ _).
  assert (Hobj : jget "id" obj = Some (JStr id)).
  { unfold obj. by rewrite jget_jset_ne. }
  split.
  - apply filed_by_id_store_object; [done |].
    intros id' k' Hid' Hk'. rewrite Hobj in Hid'. injection Hid' as <-.
    rewrite Hkey in Hk'. by injection Hk' as <-.
  - destruct (store_object_effect E obj w) as [-> | (id' & k' & _ & _ & _ & ->)]; done.
Qed.

Lemma set_new_osdm_frame_witness :
  filed_by_id (set_new_osdm (E_policy 1) "identity--U1" "marking-definition--M1"
                 w_policy).2 /\
  heap (set_new_osdm (E_policy 1) "identity--U1" "marking-definition--M1"
          w_policy).2 = heap w_policy /\
  aliases (set_new_osdm (E_policy 1) "identity--U1" "marking-definition--M1"
             w_policy).2 = aliases w_policy /\
  trace (set_new_osdm (E_policy 1) "identity--U1" "marking-definition--M1"
           w_policy).2 = trace w_policy.
Proof.
  apply (set_new_osdm_frame (E_policy 1) "identity--U1" "marking-definition--M1"
           w_policy).
  exact w_policy_filed_by_id.
Defined.

(** ** The marking manager: rejections and the base classification *)

(** X10: a call of [set_tlpplus] whose user id is not an identity, whose
    distribution argument is not a list, or whose base marking is neither
    TLP AMBER nor TLP RED returns [False] and changes nothing: in
    particular the caller's list is not appended to. *)
Theorem set_tlpplus_rejects_without_effect (E : environment)
    (user_id tlp_ref : string) (l : nat) (w : world) :
  split_first user_id <> "identity" \/
  (forall items, heap w !! l <> Some (PyList items)) \/
  (tlp_ref <> TLP_AMBER_id /\ tlp_ref <> TLP_RED_id) ->
  set_tlpplus E user_id tlp_ref l w = (Ok TlpFalse, w).
Proof.
  intros Hbad. unfold set_tlpplus.
  destruct (String.eqb (split_first user_id) "identity") eqn:Huser; simpl; [| done].
  apply String.eqb_eq in Huser.
  destruct Hbad as [Hu | [Hl | [Ha Hr]]]; [done | |].
  - run_M. destruct (heap w !! l) as [[items |] |] eqn:Hh; try done.
    by destruct (Hl items).
  - run_M. destruct (heap w !! l) as [[items |] |]; try done.
    apply String.eqb_neq in Ha, Hr. by rewrite Ha, Hr.
Qed.

Lemma set_tlpplus_rejects_without_effect_witness :
  set_tlpplus E_plain "identity--U1"
    "marking-definition--34098fce-860f-48ae-8e50-ebd3cc5e41da" 1 w_two_lists
    = (Ok TlpFalse, w_two_lists).
Proof.
  apply (set_tlpplus_rejects_without_effect E_plain "identity--U1"
           "marking-definition--34098fce-860f-48ae-8e50-ebd3cc5e41da" 1 w_two_lists).
  right. right. split; discriminate.
Defined.

(** X11: the identifier of a tlp+ marking does not depend on the base
    classification: where the store holds the marking of a list with one
    base, a call for the same list (same order) with either base returns
    the identifier of the stored marking and stores nothing, so the marking
    that identifier names carries the base it was stored with. *)
Theorem set_tlpplus_second_base_finds_first (E : environment)
    (user_id creator tlp1 tlp2 : string) (l : nat) (items : list string)
    (doc_id : string) (w : world) :
  split_first user_id = "identity" ->
  tlp2 = TLP_AMBER_id \/ tlp2 = TLP_RED_id ->
  heap w !! l = Some (PyList items) ->
  split_second (tlpplus_id E items) = Ok doc_id ->
  doc_id <> "" ->
  docs w !! ("marking-definition", doc_id)
    = Some (serialize (tlpplus_marking E creator tlp1 items)) ->
  exists w' doc,
    set_tlpplus E user_id tlp2 l w =
      (Ok (TlpExisting (tlpplus_id E items)), w') /\
    docs w' = docs w /\
    docs w' !! ("marking-definition", doc_id) = Some doc /\
    doc_definition_field "tlp_marking_def_ref" doc = Some (JStr tlp1).
Proof.
  intros Huser Htlp Hl Hid Hne Hdoc.
  eexists _, _. split.
  { apply (set_tlpplus_existing E user_id tlp2 l items doc_id w); done. }
  split; [done |]. split; [exact Hdoc | done].
Qed.

Lemma set_tlpplus_second_base_finds_first_witness :
  exists w' doc,
    set_tlpplus E_plain "identity--U1" TLP_RED_id 1 w_marked =
      (Ok (TlpExisting (tlpplus_id E_plain ["identity--U1"; "identity--U2"])), w') /\
    docs w' = docs w_marked /\
    docs w' !! ("marking-definition", doc_U1_U2) = Some doc /\
    doc_definition_field "tlp_marking_def_ref" doc = Some (JStr TLP_AMBER_id).
Proof.
  apply (set_tlpplus_second_base_finds_first E_plain "identity--U1" "identity--U1"
           TLP_AMBER_id TLP_RED_id 1 ["identity--U1"; "identity--U2"] doc_U1_U2).
  - reflexivity.
  - right; reflexivity.
  - reflexivity.
  - vm_compute; reflexivity.
  - discriminate.
  - reflexivity.
Defined.

(** ** The traversal: what comes back, what is sent *)

Lemma molecule_loop_ids E srch user_id schema_name objs query pivot _md
    fuel failed ids check_lst w ids' w' :
  molecule_loop E srch user_id schema_name objs query pivot _md
    fuel failed ids check_lst w = (Ok (MolIds ids'), w') ->
  ids ⊆ ids' /\ NoDup ids'.
Proof.
  revert failed ids check_lst w.
  induction fuel as [| fuel IH]; intros failed ids check_lst w; simpl; [done |].
  unfold bind.
  destruct (molecule_round _ _ _ _ _ _ _ _ w) as [[[ids1 check_lst1] | e] w1] eqn:Hround;
    [| done].
  apply molecule_round_frontier in Hround as [Hnd Hsub]. simpl.
  destruct (decide _).
  - unfold molecule_finish. destruct (negb _).
    + by intros [= <- <-].
    + unfold bind, lift. destruct (objects_query query ids1); [| done].
      by destruct (srch _ _ _ _ w1) as [[res | err] w2].
  - destruct (decide _); [done |]. intros Hrest. apply IH in Hrest as [Hsub' Hnd'].
    split; [| done]. intros x Hx. by apply Hsub', Hsub.
Qed.

(** X12: when [get_molecule] returns identifiers, every seed is among them
    and none is listed twice. *)
Theorem get_molecule_keeps_seeds (E : environment) (user_id : string)
    (stix_ids : list string) (schema_name : json) (objs : option bool)
    (query : option json) (pivot _md : option bool) (w w' : world)
    (ids : list string) :
  get_molecule E user_id stix_ids schema_name objs query pivot _md w
    = (Ok (MolIds ids), w') ->
  stix_ids ⊆ ids /\ NoDup ids.
Proof.
  unfold get_molecule, get_molecule_via.
  destruct schema_name as [s | l | d]; [| done | done].
  apply molecule_loop_ids.
Qed.

Lemma get_molecule_keeps_seeds_witness :
  ["a--0"] ⊆ ["a--0"; "a--1"] /\ NoDup ["a--0"; "a--1"].
Proof.
  apply (get_molecule_keeps_seeds
           (E_demo 0 [RespEmpty; RespHits [[("id", JStr "a--1")]]])
           "identity--U1" ["a--0"] (JStr "org") None None (Some false) (Some false)
           w_empty pivot_off_run.2).
  vm_compute; reflexivity.
Defined.

Lemma split_second_raises x e : split_second x = Raise e -> e = IndexError.
Proof.
  unfold split_second, index_or_raise. destruct (split_dd x !! 1%nat); [done |].
  by intros [= <-].
Qed.

Lemma mapM_split_second_raises ids x :
  x ∈ ids -> split_dd x !! 1%nat = None ->
  mapM_result split_second ids = Raise IndexError.
Proof.
  intros Hin Hbad. induction ids as [| y ids IH]; [by apply elem_of_nil in Hin |].
  simpl. destruct (split_second y) as [p |  e] eqn:Hy.
  - apply elem_of_cons in Hin as [-> | Hin].
    + unfold split_second, index_or_raise in Hy. by rewrite Hbad in Hy.
    + by rewrite (IH Hin).
  - by apply split_second_raises in Hy as ->.
Qed.

(** X13: a seed without [--] in it makes [get_molecule] raise IndexError
    before anything is searched: the world is left as it was. *)
Theorem get_molecule_malformed_seed (E : environment) (user_id : string)
    (stix_ids : list string) (schema_name : string) (objs : option bool)
    (query : option json) (pivot _md : option bool) (w : world) (seed : string) :
  seed ∈ stix_ids ->
  split_dd seed !! 1%nat = None ->
  get_molecule E user_id stix_ids (JStr schema_name) objs query pivot _md w
    = (Raise IndexError, w).
Proof.
  intros Hin Hbad. unfold get_molecule, get_molecule_via. simpl.
  unfold molecule_round, bind, lift, round_query.
  by rewrite (mapM_split_second_raises _ _ Hin Hbad).
Qed.

Lemma get_molecule_malformed_seed_witness :
  get_molecule (E_policy 1) "identity--U1" ["identity--U1"; "identity-O1"]
    (JStr "org") (Some true) None None None w_policy = (Raise IndexError, w_policy).
Proof.
  apply (get_molecule_malformed_seed (E_policy 1) "identity--U1"
           ["identity--U1"; "identity-O1"] "org" (Some true) None None None
           w_policy "identity-O1").
  - apply elem_of_cons. right. apply list_elem_of_singleton. reflexivity.
  - reflexivity.
Defined.

Lemma es_requests_app evs1 evs2 :
  es_requests (evs1 ++ evs2) = es_requests evs1 ++ es_requests evs2.
Proof. apply omap_app. Qed.

Lemma sends_ret {A} (a : A) : sends_at_most 0 (ret a).
Proof. intros w. exists []. by rewrite app_nil_r. Qed.

Lemma sends_raise {A} (e : exn) : sends_at_most 0 (raise (A := A) e).
Proof. intros w. exists []. by rewrite app_nil_r. Qed.

Lemma sends_lift {A} (r : result A) : sends_at_most 0 (lift r).
Proof. intros w. exists []. by rewrite app_nil_r. Qed.

Lemma sends_mono {A} (m : M A) n n' :
  n <= n' -> sends_at_most n m -> sends_at_most n' m.
Proof. intros Hle Hm w. destruct (Hm w) as (evs & ? & ?). exists evs. split; [done | lia]. Qed.

Lemma sends_bind {A B} (m : M A) (k : A -> M B) a b :
  sends_at_most a m -> (forall x, sends_at_most b (k x)) ->
  sends_at_most (a + b) (bind m k).
Proof.
  intros Hm Hk w. unfold bind. destruct (Hm w) as (evs1 & Ht1 & Hn1).
  destruct (m w) as [[x | e] w1]; simpl in *.
  - destruct (Hk x w1) as (evs2 & Ht2 & Hn2). exists (evs1 ++ evs2).
    rewrite Ht2, Ht1, app_assoc, es_requests_app, length_app. split; [done | lia].
  - exists evs1. split; [done | lia].
Qed.

Lemma sends_search_unmarked E user_id schema kw :
  sends_at_most 1 (search E user_id schema (Some false) kw).
Proof.
  assert (Hsuper : forall rq, sends_at_most 1 (super_search E rq)).
  { intros rq w. exists [EsSearch rq]. by split. }
  unfold search, search_via.
  apply (sends_bind _ _ 0 1).
  { intros w. exists [CallSearch user_id schema (Some false) kw]. by split. }
  intros _. simpl. destruct (negb (arg_truthy schema) && true)%bool; [apply Hsuper |].
  apply (sends_bind _ _ 0 1); [apply sends_ret |]. intros index.
  apply (sends_bind _ _ 0 1); [| intros; apply Hsuper].
  destruct schema as [schema' |]; [| apply sends_ret].
  destruct (truthy schema'); [| apply sends_ret].
  apply (sends_bind _ _ 0 0); [apply sends_lift |]. intros ?.
  apply (sends_bind _ _ 0 0); [apply sends_lift |]. intros ?. apply sends_ret.
Qed.

Lemma sends_for_schemas E user_id pivot q schemas count ids check_lst :
  sends_at_most (length schemas)
    (for_schemas (search E) user_id pivot false q schemas count ids check_lst).
Proof.
  revert count ids check_lst.
  induction schemas as [| schema rest IH]; intros count ids check_lst; simpl.
  { apply sends_ret. }
  destruct (_ && _)%bool.
  - eapply sends_mono; [| apply IH]. lia.
  - apply (sends_bind _ _ 1 (length rest)); [apply sends_search_unmarked |].
    intros res. apply IH.
Qed.

Lemma sends_molecule_round E user_id schema_name pivot ids check_lst :
  sends_at_most (searches_per_round E schema_name pivot)
    (molecule_round E (search E) user_id schema_name pivot false ids check_lst).
Proof.
  unfold molecule_round, searches_per_round.
  apply (sends_bind _ _ 0); [apply sends_lift |]. intros q.
  assert (Hout : forall schemas,
            sends_at_most (length schemas)
              (out <- for_schemas (search E) user_id pivot false q schemas 0
                              (ids, false) check_lst ;;
               if out.1.2 then raise TypeError
               else ret (py_list_set out.1.1, out.2))).
  { intros schemas. replace (length schemas) with (length schemas + 0) by lia.
    apply sends_bind; [apply sends_for_schemas |].
    intros out. destruct (out.1.2); [apply sends_raise | apply sends_ret]. }
  destruct pivot.
  - intros w. apply (Hout [JStr schema_name] w).
  - simpl. destruct (get_schema E schema_name) as [clauses |]; simpl.
    + intros w. apply (Hout clauses w).
    + apply sends_raise.
Qed.

Lemma sends_molecule_loop E user_id schema_name objs query pivot
    fuel failed ids check_lst :
  failed <= 3 ->
  sends_at_most ((4 - failed) * searches_per_round E schema_name pivot + 1)
    (molecule_loop E (search E) user_id schema_name objs query pivot false
       fuel failed ids check_lst).
Proof.
  assert (Hround : forall ids check_lst,
            sends_at_most (searches_per_round E schema_name pivot)
              (molecule_round E (search E) user_id schema_name pivot false
                 ids check_lst)) by (intros; apply sends_molecule_round).
  revert Hround. generalize (searches_per_round E schema_name pivot) as n.
  intros n Hround.
  revert failed ids check_lst.
  induction fuel as [| fuel IH]; intros failed ids check_lst Hfailed; simpl.
  { eapply sends_mono; [| apply sends_raise]. nia. }
  replace ((4 - failed) * n + 1) with (n + ((3 - failed) * n + 1)) by nia.
  apply sends_bind; [apply Hround |]. intros out.
  destruct (decide _).
  - eapply sends_mono with (n := 1); [nia |]. unfold molecule_finish.
    destruct (negb _); [eapply sends_mono; [| apply sends_ret]; nia |].
    apply (sends_bind _ _ 0 1); [apply sends_lift |]. intros q.
    replace 1 with (1 + 0) by nia.
    apply sends_bind; [apply sends_search_unmarked |]. intros res. apply sends_ret.
  - destruct (decide _).
    + eapply sends_mono; [| apply sends_ret]. nia.
    + replace (3 - failed) with (4 - (failed + 1)) by nia. apply IH. nia.
Qed.

(** X14: with the marking check off, a traversal sends the server at most
    four rounds of searches and one closing search: [4 * n + 1] requests,
    where [n] is 1 with pivot and the number of clauses of the schema
    without. *)
Theorem get_molecule_request_bound (E : environment) (user_id : string)
    (stix_ids : list string) (schema_name : string) (objs : option bool)
    (query : option json) (pivot : option bool) (w : world) :
  exists evs,
    trace (get_molecule E user_id stix_ids (JStr schema_name) objs query pivot
             (Some false) w).2 = trace w ++ evs /\
    length (es_requests evs) <=
      4 * searches_per_round E schema_name (default true pivot) + 1.
Proof.
  unfold get_molecule, get_molecule_via.
  replace (match pivot with Some b => b | None => true end) with (default true pivot)
    by (by destruct pivot).
  apply (sends_molecule_loop E user_id schema_name objs query (default true pivot)
           4 0 stix_ids []). lia.
Qed.

(** ** The policy cache: what a call leaves alone *)

Lemma lookup_without_root root w name :
  String.prefix root name = false ->
  aliases (without_root root w) !! name = aliases w !! name.
Proof.
  intros Hp. simpl. apply option_eq. intros a.
  rewrite map_lookup_filter_Some. simpl. tauto.
Qed.

(** X15: whatever [get_id_markings] does and however it ends, it leaves the
    heap and the documents as they are, and every alias whose name does not
    start with the root of the user and the index: the index aliases and
    the views of other users are neither deleted nor rewritten. *)
Theorem get_id_markings_keeps_other_aliases (E : environment)
    (user_id index_alias : string) (w : world) :
  keeps_other_aliases (md_time_index E (today E) user_id index_alias).1 w
    (get_id_markings E user_id index_alias w).2.
Proof.
  unfold get_id_markings, bind, exists_alias, delete_alias, cat_aliases, ret.
  set (root := (md_time_index E (today E) user_id index_alias).1).
  set (name := root +:+ "--" +:+ (md_time_index E (today E) user_id index_alias).2).
  case_bool_decide; [done |].
  fold (without_root root w).
  pose proof (visibility_filter_same_store E user_id (without_root root w))
    as (Hh & Hd & Ha).
  destruct (visibility_filter E user_id (without_root root w)) as [[[body |] | e] w1];
    simpl in *.
  - generalize (match aliases w1 !! index_alias with
                | Some a => alias_index a
                | None => []
                end) as index.
    intros index.
    assert (Hkept : forall other, String.prefix root other = false ->
              aliases w1 !! other = aliases w !! other).
    { intros other Hp. rewrite Ha. by apply lookup_without_root. }
    destruct (put_alias_writes index name body w1) as [Hw | Hw];
      destruct (put_alias index name body w1) as [[[] | err] w2];
      simpl in Hw; subst w2; simpl;
      (split; [done |]; split; [done |]; intros other Hp);
      try by apply Hkept.
    all: cbn [aliases with_aliases]; rewrite lookup_insert_ne; [by apply Hkept |];
      intros <-; unfold name in Hp; by rewrite prefix_append in Hp.
  - split; [done |]. split; [done |]. intros other Hp.
    rewrite Ha. by apply lookup_without_root.
  - split; [done |]. split; [done |]. intros other Hp.
    rewrite Ha. by apply lookup_without_root.
Qed.

(** X16: when no view of the day exists and the filter cannot be built (the
    org chart of the user has no object), [get_id_markings] returns [False]
    having deleted the views of earlier days: the user is left with no view
    at all. *)
Theorem get_id_markings_failed_build_leaves_no_view (E : environment)
    (user_id index_alias : string) (w w2 : world) :
  aliases w !! md_alias_name E user_id index_alias = None ->
  visibility_filter E user_id
    (without_root (md_time_index E (today E) user_id index_alias).1 w)
    = (Ok None, w2) ->
  get_id_markings E user_id index_alias w = (Ok IdxFalse, w2) /\
  forall name,
    String.prefix (md_time_index E (today E) user_id index_alias).1 name = true ->
    aliases w2 !! name = None.
Proof.
  intros Hnew Hbuild.
  pose proof (visibility_filter_same_store E user_id
                (without_root (md_time_index E (today E) user_id index_alias).1 w))
    as (_ & _ & Ha).
  rewrite Hbuild in Ha. simpl in Ha. split.
  - unfold get_id_markings, bind, exists_alias, delete_alias.
    fold (md_alias_name E user_id index_alias).
    rewrite bool_decide_eq_false_2 by (rewrite Hnew; by intros [? ?]).
    unfold without_root in Hbuild. by rewrite Hbuild.
  - intros name Hp. rewrite Ha. by apply map_lookup_filter_None; right; intros a _; simpl; rewrite Hp.
Qed.

Lemma get_id_markings_failed_build_leaves_no_view_witness :
  is_Some (aliases w_stale !! "intel--U1--0") /\
  (get_id_markings (E_demo 1 []) "identity--U1" "intel" w_stale).1 = Ok IdxFalse /\
  forall name,
    String.prefix (md_time_index (E_demo 1 []) (today (E_demo 1 []))
                     "identity--U1" "intel").1 name = true ->
    aliases (get_id_markings (E_demo 1 []) "identity--U1" "intel" w_stale).2 !! name
      = None.
Proof.
  split; [by eexists |].
  destruct (get_id_markings_failed_build_leaves_no_view (E_demo 1 [])
              "identity--U1" "intel" w_stale
              (visibility_filter (E_demo 1 []) "identity--U1"
                 (without_root "intel--U1" w_stale)).2) as [Hrun Hgone].
  - reflexivity.
  - vm_compute; reflexivity.
  - rewrite Hrun. split; [reflexivity | exact Hgone].
Defined.

(** ** The filter of a view *)

Lemma org_criteria_pii E org rest org_should valid_refs lists :
  org_criteria E (org :: rest) org_should valid_refs = Ok lists ->
  exists pii_part, split_second (pii_marking_id E) = Ok pii_part.
Proof.
  simpl. destruct (jget_or_raise "id" org); [| done].
  destruct (jget_or_raise "type" org); [| done].
  destruct (if json_is_str _ _ then _ else _); [| done].
  destruct (jsplit_second _); [| done].
  destruct (split_second (pii_marking_id E)) as [pii |]; [| done]. by exists pii.
Qed.

Lemma org_criteria_shape E pii_part org_objs :
  split_second (pii_marking_id E) = Ok pii_part ->
  forall org_should valid_refs lists,
    org_criteria E org_objs org_should valid_refs = Ok lists ->
    exists org_parts,
      mapM_result org_part org_objs = Ok org_parts /\
      lists.2 = valid_refs ++ ((fun p => pii_clause p pii_part) <$> org_parts).
Proof.
  intros Hpii. induction org_objs as [| org rest IH]; intros org_should valid_refs lists.
  - intros [= <-]. exists []. simpl. by rewrite app_nil_r.
  - simpl. unfold org_part at 1.
    destruct (jget_or_raise "id" org) as [org_id |]; [| done].
    destruct (jget_or_raise "type" org); [| done].
    destruct (if json_is_str _ _ then _ else _) as [org_should' |]; [| done].
    destruct (jsplit_second org_id) as [part |]; [| done].
    rewrite Hpii. intros Hrest.
    destruct (IH _ _ _ Hrest) as (parts & Hparts & ->).
    exists (part :: parts). rewrite Hparts. split; [done |].
    by rewrite <- app_assoc.
Qed.

Lemma mapM_result_compose {A B C} (f : A -> result B) (g : B -> result C) l ys zs :
  mapM_result f l = Ok ys -> mapM_result g ys = Ok zs ->
  mapM_result (fun x => let? y := f x in g y) l = Ok zs.
Proof.
  revert ys zs. induction l as [| x l IH]; intros ys zs; simpl.
  - by intros [= <-] [= <-].
  - destruct (f x) as [y |]; [| done].
    destruct (mapM_result f l) as [ys' |]; [| done]. intros [= <-]. simpl.
    destruct (g y) as [z |]; [| done].
    destruct (mapM_result g ys') as [zs' |] eqn:Hzs; [| done]. intros [= <-].
    by rewrite (IH ys' zs').
Qed.

(** X17: the filter that [get_id_markings] gives a view, whenever it builds
    one, is a [should] over, in this order: the clause for objects with no
    marking; one clause per reference of the open-source group object, as
    stored; one clause per object that the org chart traversal of the user
    returned, pairing the object's id with the PII marking; one clause per
    hit of the search for the marking definitions that name one of the
    distribution criteria, made in the world the traversal left. Nothing
    else gets into a view, and the world the search left is the one the
    filter is handed over in. *)
Theorem visibility_filter_content (E : environment) (user_id : string)
    (body : json) (w w' : world) :
  visibility_filter E user_id w = (Ok (Some body), w') ->
  exists k group refs os_parts user_part org_objs w2 lists org_parts pii_part
         res md_parts,
    doc_key (os_group_id E) = Ok k /\ docs w !! k = Some group /\
    jget "object_refs" group = Some refs /\
    mapM_result jsplit_second (py_iter refs) = Ok os_parts /\
    split_second user_id = Ok user_part /\
    get_molecule_via E (search_via E no_policy) user_id [user_id] (JStr "org")
      (Some true) (Some org_query) None (Some false) w
      = (Ok (MolObjs org_objs), w2) /\
    mapM_result org_part org_objs = Ok org_parts /\
    split_second (pii_marking_id E) = Ok pii_part /\
    distribution_criteria E user_part org_objs
      (unmarked_clause :: (jmatch "object_marking_refs" <$> os_parts)) = Ok lists /\
    search_via E no_policy user_id None (Some false) (marking_kwargs lists.1) w2
      = (Ok res, w') /\
    mapM_result org_part (response_hits res) = Ok md_parts /\
    body = jobj1 "filter" (jshould
             (unmarked_clause :: (jmatch "object_marking_refs" <$> os_parts) ++
              ((fun p => pii_clause p pii_part) <$> org_parts) ++
              (jmatch "object_marking_refs" <$> md_parts))).
Proof.
  unfold visibility_filter. unfold bind at 1.
  destruct (get_object (identity_id E) (os_group_id E) w) as [[[group |] | err] w1]
    eqn:Hget; [| done | done].
  apply get_object_inv in Hget as (-> & k & Hk & Hgroup).
  unfold bind at 1. unfold lift at 1. unfold jget_or_raise at 1.
  destruct (jget "object_refs" group) as [refs |] eqn:Hrefs; [| done].
  unfold bind at 1. unfold lift at 1.
  destruct (mapM_result jsplit_second (py_iter refs)) as [os_parts |] eqn:Hos; [| done].
  unfold bind at 1. unfold lift at 1.
  destruct (split_second user_id) as [user_part |] eqn:Huser; [| done].
  unfold bind at 1.
  destruct (get_molecule_via E (search_via E no_policy) user_id [user_id] (JStr "org")
              (Some true) (Some org_query) None (Some false) w)
    as [[[| [| ? ?] | [| org rest]] | err] w2] eqn:Hmol; try done.
  unfold bind at 1. unfold lift at 1.
  destruct (distribution_criteria E user_part (org :: rest) _) as [lists |] eqn:Hcrit;
    [| done].
  pose proof Hcrit as Hcrit'. unfold distribution_criteria in Hcrit'.
  destruct (org_criteria_pii _ _ _ _ _ _ Hcrit') as [pii_part Hpii].
  destruct (org_criteria_shape _ _ _ Hpii _ _ _ Hcrit') as (org_parts & Hparts & Hlists).
  unfold bind at 1.
  destruct (search_via E no_policy user_id None (Some false) (marking_kwargs lists.1) w2)
    as [[res | err] w3] eqn:Hsearch; [| done].
  match goal with
  | |- _ -> ?G =>
      assert (Hshape : forall md_parts,
                mapM_result org_part (response_hits res) = Ok md_parts ->
                (Ok (Some (jobj1 "filter" (jshould (lists.2 ++
                         (jmatch "object_marking_refs" <$> md_parts))))), w3)
                  = (Ok (Some body), w') -> G)
  end.
  { intros md_parts Hmd [= <- <-].
    exists k, group, refs, os_parts, user_part, (org :: rest), w2, lists, org_parts,
      pii_part, res, md_parts.
    repeat (split; [done |]). rewrite Hlists. simpl. by rewrite <- app_assoc. }
  destruct res as [| hits].
  - unfold bind, ret. intros Hrun. apply (Hshape []); [done |].
    simpl. by rewrite app_nil_r.
  - unfold bind at 1. unfold bind at 1. unfold lift at 1.
    destruct (mapM_result (jget_or_raise "id") hits) as [ids |] eqn:Hids; [| done].
    unfold bind at 1. unfold lift at 1.
    destruct (mapM_result jsplit_second ids) as [parts |] eqn:Hsplit; [| done].
    unfold ret. apply (Hshape parts).
    apply (mapM_result_compose _ _ _ _ _ Hids Hsplit).
Qed.

Lemma visibility_filter_content_witness :
  exists body w',
    visibility_filter (E_policy 0) "identity--U1" w_policy = (Ok (Some body), w') /\
    exists k group refs os_parts user_part org_objs w2 lists org_parts pii_part
           res md_parts,
      doc_key (os_group_id (E_policy 0)) = Ok k /\ docs w_policy !! k = Some group /\
      jget "object_refs" group = Some refs /\
      mapM_result jsplit_second (py_iter refs) = Ok os_parts /\
      split_second "identity--U1" = Ok user_part /\
      get_molecule_via (E_policy 0) (search_via (E_policy 0) no_policy)
        "identity--U1" ["identity--U1"] (JStr "org")
        (Some true) (Some org_query) None (Some false) w_policy
        = (Ok (MolObjs org_objs), w2) /\
      mapM_result org_part org_objs = Ok org_parts /\
      split_second (pii_marking_id (E_policy 0)) = Ok pii_part /\
      distribution_criteria (E_policy 0) user_part org_objs
        (unmarked_clause :: (jmatch "object_marking_refs" <$> os_parts)) = Ok lists /\
      search_via (E_policy 0) no_policy "identity--U1" None (Some false)
        (marking_kwargs lists.1) w2 = (Ok res, w') /\
      mapM_result org_part (response_hits res) = Ok md_parts /\
      body = jobj1 "filter" (jshould
               (unmarked_clause :: (jmatch "object_marking_refs" <$> os_parts) ++
                ((fun p => pii_clause p pii_part) <$> org_parts) ++
                (jmatch "object_marking_refs" <$> md_parts))).
Proof.
  destruct (visibility_filter (E_policy 0) "identity--U1" w_policy)
    as [[[body |] | err] w'] eqn:Hrun;
    [| vm_compute in Hrun; discriminate | vm_compute in Hrun; discriminate].
  exists body, w'. split; [reflexivity |].
  exact (visibility_filter_content _ _ _ _ _ Hrun).
Defined.

(** ** Where a search goes, and when it fails *)

Lemma get_id_markings_target E user_id index_alias idx w w1 :
  get_id_markings E user_id index_alias w = (Ok idx, w1) ->
  idx = IdxFalse \/
  idx = IdxName (md_alias_name E user_id index_alias) /\
  is_Some (aliases w1 !! md_alias_name E user_id index_alias).
Proof.
  intros Hrun. destruct idx as [name |]; [right | by left].
  by apply get_id_markings_name in Hrun as [-> Hview].
Qed.

(** X18: a search with the marking check on that returns a response has
    sent its request either to the view of the user for the day, which then
    exists, or to [False]; the index it was asked for only names the
    view. *)
Theorem search_marked_goes_to_view (E : environment) (user_id : string)
    (schema : option json) (_md : option bool) (kw : kwargs)
    (w w' : world) (res : response) :
  _md <> Some false ->
  search E user_id schema _md kw w = (Ok res, w') ->
  exists rq w1,
    w' = emit (EsSearch rq) w1 /\ es_search E w1 rq = Ok res /\
    (rq_index rq = IdxFalse \/
     rq_index rq = IdxName (md_alias_name E user_id (default "intel" (kw_index kw))) /\
     is_Some (aliases w' !! md_alias_name E user_id (default "intel" (kw_index kw)))).
Proof.
  intros Hmd.
  assert (Hon : match _md with Some b => b | None => true end = true).
  { destruct _md as [[|] |]; done. }
  unfold search, search_via, bind, log_event, super_search, lift, ret. simpl.
  rewrite Hon, andb_false_r.
  replace (match kw_index kw with Some i => i | None => "intel" end)
    with (default "intel" (kw_index kw)) by (by destruct (kw_index kw)).
  destruct (get_id_markings E user_id (default "intel" (kw_index kw)) _)
    as [[idx | err] w1] eqn:Hidx; [| done].
  apply get_id_markings_target in Hidx.
  assert (Hsent : forall body,
            (es_search E w1 (EsRequest idx
               match kw_size kw with Some n => n | None => 10000%N end body
               (kw_filter_path kw) (kw_source_excludes kw)),
             emit (EsSearch (EsRequest idx
               match kw_size kw with Some n => n | None => 10000%N end body
               (kw_filter_path kw) (kw_source_excludes kw))) w1) = (Ok res, w') ->
            exists rq w1,
              w' = emit (EsSearch rq) w1 /\ es_search E w1 rq = Ok res /\
              (rq_index rq = IdxFalse \/
               rq_index rq
                 = IdxName (md_alias_name E user_id (default "intel" (kw_index kw))) /\
               is_Some (aliases w'
                          !! md_alias_name E user_id (default "intel" (kw_index kw))))).
  { intros body [= Hres <-]. eexists _, w1. split; [done |]. split; [done |].
    simpl. destruct Hidx as [-> | [-> Hview]]; [by left | by right]. }
  destruct schema as [schema' |]; [| apply Hsent].
  destruct (truthy schema'); [| apply Hsent].
  destruct (schema_should E schema'); [| done].
  destruct (body_query (kw_body kw)); [| done]. apply Hsent.
Qed.

Lemma search_marked_goes_to_view_witness :
  exists res w' rq w1,
    search (E_phrase 1) "identity--U1" None None
      (Kwargs None None (Some phrase_query) None None) w_policy = (Ok res, w') /\
    w' = emit (EsSearch rq) w1 /\ es_search (E_phrase 1) w1 rq = Ok res /\
    (rq_index rq = IdxFalse \/
     rq_index rq = IdxName (md_alias_name (E_phrase 1) "identity--U1" "intel") /\
     is_Some (aliases w' !! md_alias_name (E_phrase 1) "identity--U1" "intel")).
Proof.
  destruct (search (E_phrase 1) "identity--U1" None None
              (Kwargs None None (Some phrase_query) None None) w_policy)
    as [[res | err] w'] eqn:Hrun; [| vm_compute in Hrun; discriminate].
  destruct (search_marked_goes_to_view (E_phrase 1) "identity--U1" None None _ _ _ _
              ltac:(discriminate) Hrun)
    as (rq & w1 & Hw & Hes & Hidx).
  exists res, w', rq, w1. split; [reflexivity |]. split; [exact Hw |].
  split; [exact Hes | exact Hidx].
Defined.

(** X19: a schema name that [get_schema] does not know makes [search] raise
    KeyError without sending its request. With the marking check off
    nothing has happened by then; with it on, [get_id_markings] has already
    run (and may have rebuilt the view), and the search fails with what it
    left. *)
Theorem search_unknown_schema (E : environment) (user_id name : string)
    (_md : option bool) (kw : kwargs) (w : world) :
  get_schema E name = None -> name <> "" -> name <> "all" ->
  search E user_id (Some (JStr name)) _md kw w =
    let w0 := emit (CallSearch user_id (Some (JStr name)) _md kw) w in
    if default true _md
    then match get_id_markings E user_id (default "intel" (kw_index kw)) w0 with
         | (Ok _, w1) => (Raise KeyError, w1)
         | (Raise e, w1) => (Raise e, w1)
         end
    else (Raise KeyError, w0).
Proof.
  intros Hunknown Hname Hall.
  assert (Ht : truthy (JStr name) = true) by (by destruct name).
  assert (Hs : schema_should E (JStr name) = Raise KeyError).
  { simpl. rewrite (proj2 (String.eqb_neq _ _) Hall). by rewrite Hunknown. }
  unfold search, search_via, bind, log_event, super_search, lift, ret.
  cbn [arg_truthy]. rewrite Ht, Hs. simpl.
  replace (match kw_index kw with Some i => i | None => "intel" end)
    with (default "intel" (kw_index kw)) by (by destruct (kw_index kw)).
  destruct _md as [[|] |]; simpl; try done;
    by destruct (get_id_markings E user_id _ _) as [[idx | err] w1].
Qed.

Lemma search_unknown_schema_witness :
  search E_plain "identity--U1" (Some (JStr "incident")) (Some false)
    (Kwargs None None (Some phrase_query) None None) w_empty =
  (Raise KeyError,
   emit (CallSearch "identity--U1" (Some (JStr "incident")) (Some false)
           (Kwargs None None (Some phrase_query) None None)) w_empty).
Proof.
  apply (search_unknown_schema E_plain "identity--U1" "incident" (Some false)
           (Kwargs None None (Some phrase_query) None None) w_empty);
    [reflexivity | discriminate | discriminate].
Defined.

(** ** [get_free_text] *)

Lemma free_text_rows_shape E user_id schema hits :
  forall rows w w',
    free_text_rows E user_id schema hits w = (Ok rows, w') ->
    rows.*1 = hits /\
    Forall (fun row => forall m, row.2 = Some m -> molecule_truthy m = true) rows.
Proof.
  induction hits as [| hit rest IH]; intros rows w w'; simpl.
  - unfold ret. by intros [= <- <-].
  - unfold bind, lift, ret.
    destruct (jget_or_raise "id" hit) as [seed |]; [| done].
    destruct (molecule_of_hit E user_id seed schema w) as [[molecule | err] w1]; [| done].
    destruct (free_text_rows E user_id schema rest w1) as [[rows' | err] w2] eqn:Hrest;
      [| done].
    intros [= <- <-]. destruct (IH _ _ _ Hrest) as [Hfst Hsnd]. split.
    + rewrite fmap_cons. simpl. by rewrite Hfst.
    + constructor; [| done]. simpl. intros m.
      destruct (molecule_truthy molecule) eqn:Hm; [| done]. by intros [= <-].
Qed.

(** X20: what [get_free_text] returns, when it returns: [False] exactly
    when the search of the phrase has no hit; without a schema, the hits as
    they came; with a schema, one row per hit, in the order of the hits,
    whose first entry is the hit, and whose molecule, when the row has one,
    is not empty. *)
Theorem get_free_text_rows (E : environment) (user_id phrase : string)
    (schema : option json) (w w' : world) (r : free_text_result) :
  get_free_text E user_id phrase schema w = (Ok r, w') ->
  exists hits w1,
    search E user_id None None
      (Kwargs None None (Some (phrase_body phrase)) None None) w
      = (Ok (RespHits hits), w1) /\
    match r with
    | FreeFalse => hits = [] /\ w' = w1
    | FreeDocs docs => docs = hits /\ hits <> [] /\ arg_truthy schema = false /\ w' = w1
    | FreeRows rows =>
        rows.*1 = hits /\ hits <> [] /\ arg_truthy schema = true /\
        Forall (fun row => forall m, row.2 = Some m -> molecule_truthy m = true) rows
    end.
Proof.
  unfold get_free_text. unfold bind at 1.
  destruct (search E user_id None None _ w) as [[[| hits] | err] w1]; [done | | done].
  unfold bind at 1. unfold lift at 1. simpl.
  destruct hits as [| hit rest].
  { unfold ret. intros [= <- <-]. by exists [], w1. }
  assert (Hdocs : (Ok (FreeDocs (hit :: rest)), w1) = (Ok r, w') ->
            arg_truthy schema = false ->
            exists hits w0,
              (Ok (RespHits (hit :: rest)), w1) = (Ok (RespHits hits), w0) /\
              match r with
              | FreeFalse => hits = [] /\ w' = w0
              | FreeDocs docs =>
                  docs = hits /\ hits <> [] /\ arg_truthy schema = false /\ w' = w0
              | FreeRows rows =>
                  rows.*1 = hits /\ hits <> [] /\ arg_truthy schema = true /\
                  Forall (fun row => forall m, row.2 = Some m ->
                                     molecule_truthy m = true) rows
              end).
  { intros [= <- <-] Hfalsy. by exists (hit :: rest), w1. }
  destruct schema as [schema' |]; [| by intros; apply Hdocs].
  destruct (truthy schema') eqn:Ht; [| by intros; apply Hdocs].
  unfold bind.
  destruct (free_text_rows E user_id schema' (hit :: rest) w1) as [[rows | err] w2]
    eqn:Hrows; [| done].
  unfold ret. intros [= <- <-]. apply free_text_rows_shape in Hrows as [Hfst Hsnd].
  exists (hit :: rest), w1. by repeat split.
Qed.

Lemma get_free_text_rows_witness :
  exists r w' hits w1,
    get_free_text (E_phrase 0) "identity--U1" "apt" None w_policy = (Ok r, w') /\
    search (E_phrase 0) "identity--U1" None None
      (Kwargs None None (Some (phrase_body "apt")) None None) w_policy
      = (Ok (RespHits hits), w1) /\
    r = FreeDocs hits /\ hits = [user_U1; org_O1].
Proof.
  destruct (get_free_text (E_phrase 0) "identity--U1" "apt" None w_policy)
    as [[r | err] w'] eqn:Hrun; [| vm_compute in Hrun; discriminate].
  destruct (get_free_text_rows _ _ _ _ _ _ _ Hrun) as (hits & w1 & Hsearch & Hshape).
  exists r, w', hits, w1. split; [reflexivity |]. split; [exact Hsearch |].
  vm_compute in Hrun. injection Hrun as <- _.
  vm_compute in Hsearch. injection Hsearch as <- _. by split.
Defined.

Lemma free_text_rows_not_str E user_id schema hits w :
  match schema with JStr _ => False | _ => True end ->
  Forall (fun hit => is_Some (jget "id" hit)) hits ->
  free_text_rows E user_id schema hits w = (Ok ((fun hit => (hit, None)) <$> hits), w).
Proof.
  intros Hschema Hids. induction Hids as [| hit rest [seed Hseed] _ IH]; [done |].
  simpl. unfold bind, lift, ret, jget_or_raise. rewrite Hseed.
  assert (Hmol : molecule_of_hit E user_id seed schema w = (Ok MolFalse, w)).
  { destruct seed, schema; done. }
  rewrite Hmol, IH. done.
Qed.

(** X21: with a schema that is not a name (a dict, a list of names),
    [get_free_text] attaches no molecule to any hit: [get_molecule] turns
    such a schema down, so every row is the hit alone, and nothing is
    searched after the phrase. *)
Theorem get_free_text_schema_not_str (E : environment) (user_id phrase : string)
    (schema : json) (hits : list pydict) (w w1 : world) :
  match schema with JStr _ => False | _ => True end ->
  truthy schema = true ->
  search E user_id None None
    (Kwargs None None (Some (phrase_body phrase)) None None) w
    = (Ok (RespHits hits), w1) ->
  hits <> [] ->
  Forall (fun hit => is_Some (jget "id" hit)) hits ->
  get_free_text E user_id phrase (Some schema) w
    = (Ok (FreeRows ((fun hit => (hit, None)) <$> hits)), w1).
Proof.
  intros Hschema Ht Hsearch Hhits Hids.
  unfold get_free_text. unfold bind at 1. rewrite Hsearch.
  unfold bind at 1. unfold lift at 1. simpl.
  destruct hits as [| hit rest]; [done |]. rewrite Ht. unfold bind.
  by rewrite free_text_rows_not_str.
Qed.

Lemma get_free_text_schema_not_str_witness :
  get_free_text (E_phrase 0) "identity--U1" "apt" (Some clause_identity) w_policy
    = (Ok (FreeRows [(user_U1, None); (org_O1, None)]),
       (search (E_phrase 0) "identity--U1" None None
          (Kwargs None None (Some (phrase_body "apt")) None None) w_policy).2).
Proof.
  apply (get_free_text_schema_not_str (E_phrase 0) "identity--U1" "apt"
           clause_identity [user_U1; org_O1] w_policy).
  - exact I.
  - reflexivity.
  - vm_compute; reflexivity.
  - discriminate.
  - repeat constructor; by eexists.
Defined.
